(** * k8s-ldap-auth: directory authentication and token review

    A shallow embedding of [ldap/ldap.go] and [server/server.go].

    Go strings are byte strings: they are Rocq [string]s (one [ascii] per
    byte).  A Go [error] is the text of its message.  A function that may
    panic returns an [outcome].  The directory, the token service of the
    [types] package, the JSON codec and the few library functions the code
    calls are interfaces (type classes), so every statement holds for each
    of their implementations. *)

From Stdlib Require Import ZArith NArith String Ascii List Lia Bool.
From Stdlib Require Import Decimal DecimalString DecimalZ.
From stdpp Require Import base option list gmap strings.

Open Scope string_scope.
Open Scope list_scope.
Open Scope Z_scope.

(** ** Go basics *)

Definition error := string.

(** A [time.Time], as seconds since the epoch. *)
Definition Time := Z.

(** The result of running Go code that may panic. *)
Inductive outcome (A : Type) : Type :=
  | Ret (a : A)
  | Panic (msg : string).
Arguments Ret {A} a.
Arguments Panic {A} msg.

#[global] Instance outcome_ret : MRet outcome := fun _ a => Ret a.
#[global] Instance outcome_bind : MBind outcome := fun _ _ f m =>
  match m with
  | Ret a => f a
  | Panic msg => Panic msg
  end.

(** [a[i]] on a slice: a run-time panic when [i] is out of range. *)
Definition index {A : Type} (a : list A) (i : nat) : outcome A :=
  match a !! i with
  | Some x => Ret x
  | None => Panic "runtime error: index out of range"
  end.

(** ** Byte strings *)

Definition byte_in (lo hi c : ascii) : bool :=
  ((N_of_ascii lo <=? N_of_ascii c) && (N_of_ascii c <=? N_of_ascii hi))%N.

Fixpoint mapBytes (f : ascii -> ascii) (s : string) : string :=
  match s with
  | EmptyString => EmptyString
  | String c s' => String (f c) (mapBytes f s')
  end.

Fixpoint allBytes (p : ascii -> bool) (s : string) : bool :=
  match s with
  | EmptyString => true
  | String c s' => p c && allBytes p s'
  end.

(** The longest prefix of [s] whose bytes satisfy [p]. *)
Fixpoint takeWhile (p : ascii -> bool) (s : string) : string :=
  match s with
  | EmptyString => EmptyString
  | String c s' => if p c then String c (takeWhile p s') else EmptyString
  end.

(** Where a run of [p]-bytes ends: at the end of the string or before a
    byte that is not in [p]. *)
Definition stops (p : ascii -> bool) (rest : string) : Prop :=
  match rest with
  | EmptyString => True
  | String c _ => p c = false
  end.

(** [s] without its prefix [p], when it has it. *)
Fixpoint stripPrefix (p s : string) : option string :=
  match p, s with
  | EmptyString, _ => Some s
  | String a p', String b s' => if Ascii.eqb a b then stripPrefix p' s' else None
  | String _ _, EmptyString => None
  end.

(** [c < utf8.RuneSelf] *)
Definition isASCIIByte (c : ascii) : bool := (N_of_ascii c <? 128)%N.
Definition isASCII (s : string) : bool := allBytes isASCIIByte s.

Definition isUpperByte (c : ascii) : bool := byte_in "A" "Z" c.

(** [c += 'a' - 'A'] on an upper-case letter. *)
Definition lowerByte (c : ascii) : ascii :=
  if isUpperByte c then ascii_of_N (N_of_ascii c + 32) else c.

(** Library functions of Go the code calls.  [strings.ToLower] lowers an
    ASCII string byte by byte and maps [unicode.ToLower] over the runes of
    any other string; that rune mapping is [unicodeLower].  [Sprintf] is
    [fmt.Sprintf] with one string argument. *)
Class GoLib := {
  unicodeLower : string -> string;
  Sprintf : string -> string -> string;
}.

Module strings.
Section strings.
Context {golib : GoLib}.

Definition ToLower (s : string) : string :=
  if isASCII s then mapBytes lowerByte s else unicodeLower s.
End strings.
End strings.

(** ** The regular expression [^cn=([a-z0-9\-]+)] *)

Module regexp.

(** The character class [[a-z0-9\-]]. *)
Definition cnClass (c : ascii) : bool :=
  byte_in "a" "z" c || byte_in "0" "9" c || Ascii.eqb c "-".

(** [MustCompile(`^cn=([a-z0-9\-]+)`).FindStringSubmatch(s)]: the whole
    match and the group, or the nil slice when [s] does not match.  The
    pattern is anchored and [+] is greedy, so the group is the longest
    run of class bytes after the prefix, and must not be empty. *)
Definition FindStringSubmatch (s : string) : list string :=
  match stripPrefix "cn=" s with
  | Some rest =>
      match takeWhile cnClass rest with
      | EmptyString => []
      | name => ["cn=" +:+ name; name]
      end
  | None => []
  end.

End regexp.

(** ** github.com/go-ldap/ldap: entries and the connection *)

Module goldap.

Record EntryAttribute := {
  Name : string;
  Values : list string;
}.

Record Entry := {
  DN : string;
  Attributes : list EntryAttribute;
}.

Fixpoint GetAttributeValues_in (attrs : list EntryAttribute) (attribute : string)
  : list string :=
  match attrs with
  | [] => []
  | attr :: attrs' =>
      if String.eqb (Name attr) attribute then Values attr
      else GetAttributeValues_in attrs' attribute
  end.

Definition GetAttributeValues (e : Entry) (attribute : string) : list string :=
  GetAttributeValues_in (Attributes e) attribute.

Definition GetAttributeValue (e : Entry) (attribute : string) : string :=
  match GetAttributeValues e attribute with
  | [] => ""
  | v :: _ => v
  end.

Record SearchRequest := {
  BaseDN : string;
  Scope : Z;
  DerefAliases : Z;
  SizeLimit : Z;
  TimeLimit : Z;
  TypesOnly : bool;
  Filter : string;
  ReqAttributes : list string;
}.

Definition NeverDerefAliases : Z := 0.

Record SearchResult := {
  Entries : list Entry;
}.

(** The directory behind a connection.  [Bind] and [ConnSearch] return
    the connection's next state with their result. *)
Class Directory := {
  Conn : Type;
  DialURL : string -> error + Conn;
  Bind : Conn -> string -> string -> option error * Conn;
  ConnSearch : Conn -> SearchRequest -> (error + SearchResult) * Conn;
}.

(** What the service did on the wire, in order. *)
Inductive Event :=
  | EvDial (url : string)
  | EvBind (dn password : string)
  | EvSearch (r : SearchRequest)
  | EvClose.

End goldap.

(** ** Package types: users and credentials *)

Module types.

Record User := {
  Uid : string;
  DN : string;
  Groups : list string;
}.

Record Credentials := {
  Username : string;
  Password : string;
}.

(** Modelled from the spec: [Credentials.IsValid] lives in the [types]
    package, which is not among the sources.  "Credentials: {username,
    password}. Valid iff both non-empty." *)
Definition IsValid (c : Credentials) : bool :=
  negb (String.eqb (Username c) "") && negb (String.eqb (Password c) "").

(** The token operations of the package, as [server.go] calls them; the
    package is not among the sources.  [NewToken] and [IsValid] read the
    clock, which is their first argument here.  [Payload] and [Parse] are
    only ever called with a nil key, so the key is the service's own.  A
    nil error comes with a non-nil pointer. *)
Class TokenService := {
  Token : Type;
  NewToken : Time -> string -> Token;
  Payload : Token -> error + string;
  Expiration : Token -> error + Time;
  Parse : string -> error + Token;
  TokenIsValid : Time -> Token -> bool;
  GetUser : Token -> error + User;
}.

End types.

(** ** Package ldap *)

Module ldap.

Record Ldap := {
  ldapURL : string;
  bindDN : string;
  bindPassword : string;
  searchBase : string;
  searchScope : string;
  searchFilter : string;
  memberOfProperty : string;
  searchAttributes : list string;
}.

Definition NewInstance (ldapURL bindDN bindPassword searchBase searchScope
    searchFilter memberOfProperty : string) (searchAttributes : list string) : Ldap :=
  {| ldapURL := ldapURL; bindDN := bindDN; bindPassword := bindPassword;
     searchBase := searchBase; searchScope := searchScope;
     searchFilter := searchFilter; memberOfProperty := memberOfProperty;
     searchAttributes := searchAttributes |}.

(** [scopeMap] is declared in a file of the package that is not among the
    sources: a table from scope names to go-ldap scope numbers.  A Go map
    yields the zero value on a missing key. *)
Class ScopeTable := scopeMap : gmap string Z.

Definition scopeOf {scopetab : ScopeTable} (name : string) : Z :=
  default 0 (scopeMap !! name).

Section ldap.
Context {golib : GoLib} {dir : goldap.Directory} {scopetab : ScopeTable}.

(** The loop of [sanitize]; [res] is the slice built so far. *)
Fixpoint sanitize_from (res : list string) (a : list string) : outcome (list string) :=
  match a with
  | [] => Ret res
  | item :: a' =>
      name ← index (regexp.FindStringSubmatch (strings.ToLower item)) 1;
      sanitize_from (res ++ [name]) a'
  end.

Definition sanitize (a : list string) : outcome (list string) :=
  sanitize_from [] a.

(** The group the pattern finds in a value: element 1 of the submatch of
    its lowercase. *)
Definition groupOf (value group : string) : Prop :=
  regexp.FindStringSubmatch (strings.ToLower value) !! 1%nat = Some group.

Definition notComma (c : ascii) : bool := negb (Ascii.eqb c ",").

(** The spec's reading of a group value, to compare [sanitize] with: of a
    value that reads [cn=<name>,...] once lowercased, the name is what
    stands between the prefix and the first comma. *)
Definition spec_groupName (value : string) : option string :=
  match stripPrefix "cn=" (strings.ToLower value) with
  | Some rest => Some (takeWhile notComma rest)
  | None => None
  end.

Definition searchRequestFor (s : Ldap) (username : string) : goldap.SearchRequest :=
  {| goldap.BaseDN := searchBase s;
     goldap.Scope := scopeOf (searchScope s);
     goldap.DerefAliases := goldap.NeverDerefAliases;
     goldap.SizeLimit := 0;
     goldap.TimeLimit := 0;
     goldap.TypesOnly := false;
     goldap.Filter := Sprintf (searchFilter s) username;
     goldap.ReqAttributes := searchAttributes s |}.

(** The events of a search that got as far as the directory search. *)
Definition searched (s : Ldap) (username : string) : list goldap.Event :=
  [goldap.EvBind (bindDN s) (bindPassword s);
   goldap.EvSearch (searchRequestFor s username)].

(** What [Search] returns: a user pointer and an error, either of
    which may be nil. *)
Definition SearchReturn : Type := option types.User * option error.

(** [Search] after a successful dial, up to its return; the deferred
    [l.Close()] is added by [Search]. *)
Definition searchOn (s : Ldap) (l : goldap.Conn) (username password : string)
  : list goldap.Event * outcome SearchReturn :=
  let ev1 := [goldap.EvBind (bindDN s) (bindPassword s)] in
  match goldap.Bind l (bindDN s) (bindPassword s) with
  | (Some err, _) => (ev1, Ret (None, Some err))
  | (None, l) =>
      let searchRequest := searchRequestFor s username in
      let ev2 := ev1 ++ [goldap.EvSearch searchRequest] in
      match goldap.ConnSearch l searchRequest with
      | (inl err, _) => (ev2, Ret (None, Some err))
      | (inr result, l) =>
          if (length (goldap.Entries result) =? 0)%nat then
            (ev2, Ret (None, None))
          else if (1 <? length (goldap.Entries result))%nat then
            (ev2, Ret (None, Some "Too many entries returned"))
          else
            match index (goldap.Entries result) 0 with
            | Panic msg => (ev2, Panic msg)
            | Ret entry =>
                let ev3 := ev2 ++ [goldap.EvBind (goldap.DN entry) password] in
                match goldap.Bind l (goldap.DN entry) password with
                | (Some err, _) => (ev3, Ret (None, Some err))
                | (None, _) =>
                    (ev3,
                     groups ← sanitize (goldap.GetAttributeValues entry (memberOfProperty s));
                     Ret (Some {| types.Uid := strings.ToLower (goldap.GetAttributeValue entry "uid");
                                  types.DN := strings.ToLower (goldap.DN entry);
                                  types.Groups := groups |},
                          None))
                end
            end
      end
  end.

Definition Search (s : Ldap) (username password : string)
  : list goldap.Event * outcome SearchReturn :=
  match goldap.DialURL (ldapURL s) with
  | inl err => ([goldap.EvDial (ldapURL s)], Ret (None, Some err))
  | inr l =>
      let '(evs, r) := searchOn s l username password in
      (goldap.EvDial (ldapURL s) :: evs ++ [goldap.EvClose], r)
  end.

End ldap.
End ldap.

(** ** Kubernetes API objects *)

Module metav1.

Record TypeMeta := {
  Kind : string;
  APIVersion : string;
}.

(** [ObjectMeta] is carried around and never looked into. *)
Class ObjectMetaType := ObjectMeta : Type.

End metav1.

(** k8s.io/api/authentication/v1 *)
Module auth.

Record UserInfo := {
  Username : string;
  UID : string;
  Groups : list string;
  Extra : gmap string (list string);
}.

Record TokenReviewSpec := {
  Token : string;
  SpecAudiences : list string;
}.

Record TokenReviewStatus := {
  Authenticated : bool;
  User : UserInfo;
  StatusAudiences : list string;
  Error : string;
}.

Record TokenReview {ometa : metav1.ObjectMetaType} := {
  TypeMeta : metav1.TypeMeta;
  ObjectMeta : metav1.ObjectMeta;
  Spec : TokenReviewSpec;
  Status : TokenReviewStatus;
}.

(** [tr.Status.Authenticated = b] *)
Definition setAuthenticated {ometa : metav1.ObjectMetaType} (b : bool) (tr : TokenReview)
  : TokenReview :=
  {| TypeMeta := TypeMeta tr; ObjectMeta := ObjectMeta tr; Spec := Spec tr;
     Status := {| Authenticated := b;
                  User := User (Status tr);
                  StatusAudiences := StatusAudiences (Status tr);
                  Error := Error (Status tr) |} |}.

(** [tr.Status.User = u] *)
Definition setUser {ometa : metav1.ObjectMetaType} (u : UserInfo) (tr : TokenReview)
  : TokenReview :=
  {| TypeMeta := TypeMeta tr; ObjectMeta := ObjectMeta tr; Spec := Spec tr;
     Status := {| Authenticated := Authenticated (Status tr);
                  User := u;
                  StatusAudiences := StatusAudiences (Status tr);
                  Error := Error (Status tr) |} |}.

End auth.

(** k8s.io/client-go/pkg/apis/clientauthentication/v1beta1; the fields the
    handler leaves at their zero value are the strings and [None]s below. *)
Module client.

Record ExecCredentialStatus := {
  ExpirationTimestamp : option Time;
  Token : string;
  ClientCertificateData : string;
  ClientKeyData : string;
}.

Record ExecCredential := {
  TypeMeta : metav1.TypeMeta;
  Status : option ExecCredentialStatus;
}.

End client.

(** ** encoding/json

    What the code asks of the JSON library: marshalling a user pointer
    (nil is [None]), and decoding a request body into credentials or into a
    token review. *)
Class JSON {ometa : metav1.ObjectMetaType} := {
  Marshal_User : option types.User -> error + string;
  Decode_Credentials : string -> error + types.Credentials;
  Decode_TokenReview : string -> error + auth.TokenReview;
}.

(** ** net/http *)

Module http.

(** [h.Get(key)] for a key in canonical form: the first value, or the
    empty string. *)
Definition Get (h : gmap string (list string)) (key : string) : string :=
  match h !! key with
  | Some (v :: _) => v
  | _ => ""
  end.

Definition Set_ (h : gmap string (list string)) (key value : string)
  : gmap string (list string) :=
  <[key := [value]]> h.

Record Request := {
  ReqHeader : gmap string (list string);
  Body : string;
}.

(** What has been written to the body: raw text, or a value handed to a
    JSON encoder. *)
Inductive Written {ometa : metav1.ObjectMetaType} :=
  | Text (s : string)
  | ExecCredentialJSON (ec : client.ExecCredential)
  | TokenReviewJSON (tr : auth.TokenReview).

(** The state of a response writer: the header map, the status line
    once it is sent, and the body so far. *)
Record ResponseWriter {ometa : metav1.ObjectMetaType} := {
  WHeader : gmap string (list string);
  WStatus : option Z;
  WBody : list Written;
}.

Definition StatusOK : Z := 200.

Section http.
Context {ometa : metav1.ObjectMetaType}.

Definition NewResponseWriter : ResponseWriter :=
  {| WHeader := ∅; WStatus := None; WBody := [] |}.

(** The status line is sent once; later calls change nothing. *)
Definition WriteHeader (res : ResponseWriter) (code : Z) : ResponseWriter :=
  match WStatus res with
  | Some _ => res
  | None => {| WHeader := WHeader res; WStatus := Some code; WBody := WBody res |}
  end.

(** A write sends [200 OK] first unless a status line was sent before. *)
Definition Write (res : ResponseWriter) (w : Written) : ResponseWriter :=
  let res := WriteHeader res StatusOK in
  {| WHeader := WHeader res; WStatus := WStatus res; WBody := WBody res ++ [w] |}.

(** [res.Header().Set(key, value)]; it reaches the client only when the
    status line is not sent yet. *)
Definition HeaderSet (res : ResponseWriter) (key value : string) : ResponseWriter :=
  match WStatus res with
  | Some _ => res
  | None => {| WHeader := Set_ (WHeader res) key value;
               WStatus := WStatus res; WBody := WBody res |}
  end.

End http.
End http.

(** ** Package server *)

Module server.

Definition ContentTypeHeader : string := "Content-Type".
Definition ContentTypeJSON : string := "application/json".

Record ServerError := {
  s : Z;
  e : error;
}.

(** The texts of the server's error values; the file that declares the
    values is not among the sources and the spec does not give them. *)
Class ErrorTexts := {
  textNotAcceptable : error;
  textDecodeFailed : error;
  textMalformedCredentials : error;
  textUnauthorized : error;
  textMalformedToken : error;
  textServerError : error;
}.

(** The part of [Instance] the handlers read. *)
Record Instance := {
  l : ldap.Ldap;
}.

Section server.
Context {golib : GoLib} {dir : goldap.Directory} {scopetab : ldap.ScopeTable}.
Context {ometa : metav1.ObjectMetaType} {codec : JSON} {tokens : types.TokenService}
  {texts : ErrorTexts}.

(** Modelled from the spec: the error values [ErrNotAcceptable],
    [ErrDecodeFailed], [ErrMalformedCredentials], [ErrUnauthorized],
    [ErrMalformedToken] and [ErrServerError] are declared in a file of the
    package that is not among the sources.  "Status codes: 406
    wrong/missing content type; 400 undecodable body or empty fields; 401
    directory authentication failed (any reason); 500 internal (token
    issuance) failure"; for the review, "401 if the token is structurally
    malformed; 500 if a seemingly well-formed token fails to decode
    internally". *)
Definition ErrNotAcceptable : ServerError :=
  {| s := 406; e := textNotAcceptable |}.
Definition ErrDecodeFailed : ServerError :=
  {| s := 400; e := textDecodeFailed |}.
Definition ErrMalformedCredentials : ServerError :=
  {| s := 400; e := textMalformedCredentials |}.
Definition ErrUnauthorized : ServerError :=
  {| s := 401; e := textUnauthorized |}.
Definition ErrMalformedToken : ServerError :=
  {| s := 401; e := textMalformedToken |}.
Definition ErrServerError : ServerError :=
  {| s := 500; e := textServerError |}.

Definition writeError (res : http.ResponseWriter) (err : ServerError)
  : http.ResponseWriter :=
  let res := http.WriteHeader res (s err) in
  http.Write res (http.Text (e err)).

(** The credential [authenticate] builds from the signed token and its
    expiration. *)
Definition credentialOf (tokenData : string) (tokenExp : Time) : client.ExecCredential :=
  {| client.TypeMeta := {| metav1.Kind := ""; metav1.APIVersion := "" |};
     client.Status :=
       Some {| client.Token := tokenData;
               client.ExpirationTimestamp := Some tokenExp;
               client.ClientCertificateData := "";
               client.ClientKeyData := "" |} |}.

(** The tail of [authenticate] once [Search] has returned without
    error: it marshals whatever user pointer it got. *)
Definition issue (now : Time) (res : http.ResponseWriter) (user : option types.User)
  : http.ResponseWriter :=
  match Marshal_User user with
  | inl _ => writeError res ErrServerError
  | inr data =>
      let token := types.NewToken now data in
      match types.Payload token with
      | inl _ => writeError res ErrServerError
      | inr tokenData =>
          match types.Expiration token with
          | inl _ => writeError res ErrServerError
          | inr tokenExp =>
              let ec := credentialOf tokenData tokenExp in
              let res := http.HeaderSet res ContentTypeHeader ContentTypeJSON in
              http.Write res (http.ExecCredentialJSON ec)
          end
      end
  end.

(** The handler of [POST /auth], run at clock reading [now]: what it did
    on the wire to the directory, and the response writer it leaves, or
    the panic that ended it. *)
Definition authenticate (srv : Instance) (now : Time)
    (res : http.ResponseWriter) (req : http.Request)
  : list goldap.Event * outcome http.ResponseWriter :=
  if negb (String.eqb (http.Get (http.ReqHeader req) ContentTypeHeader) ContentTypeJSON)
  then ([], Ret (writeError res ErrNotAcceptable))
  else
    match Decode_Credentials (http.Body req) with
    | inl _ => ([], Ret (writeError res ErrDecodeFailed))
    | inr credentials =>
        if negb (types.IsValid credentials)
        then ([], Ret (writeError res ErrMalformedCredentials))
        else
          let '(evs, r) :=
            ldap.Search (l srv) (types.Username credentials) (types.Password credentials) in
          match r with
          | Panic msg => (evs, Panic msg)
          | Ret (_, Some _) => (evs, Ret (writeError res ErrUnauthorized))
          | Ret (user, None) => (evs, Ret (issue now res user))
          end
    end.

(** The handler of [POST /token], run at clock reading [now]. *)
Definition validate (srv : Instance) (now : Time)
    (res : http.ResponseWriter) (req : http.Request)
  : http.ResponseWriter :=
  if negb (String.eqb (http.Get (http.ReqHeader req) ContentTypeHeader) ContentTypeJSON)
  then writeError res ErrNotAcceptable
  else
    match Decode_TokenReview (http.Body req) with
    | inl _ => writeError res ErrDecodeFailed
    | inr tr =>
        match types.Parse (auth.Token (auth.Spec tr)) with
        | inl _ => writeError res ErrMalformedToken
        | inr token =>
            if negb (types.TokenIsValid now token) then
              let tr := auth.setAuthenticated false tr in
              let res := http.HeaderSet res ContentTypeHeader ContentTypeJSON in
              http.Write res (http.TokenReviewJSON tr)
            else
              match types.GetUser token with
              | inl _ => writeError res ErrServerError
              | inr user =>
                  let tr := auth.setAuthenticated true tr in
                  let tr := auth.setUser
                              {| auth.Username := types.Uid user;
                                 auth.UID := types.DN user;
                                 auth.Groups := types.Groups user;
                                 auth.Extra := ∅ |} tr in
                  let res := http.HeaderSet res ContentTypeHeader ContentTypeJSON in
                  http.Write res (http.TokenReviewJSON tr)
              end
        end
    end.

End server.
End server.

(** ** The contract of the token service *)

(** Modelled from the spec: the token functions of the [types] package are
    not among the sources; this is what the spec asks of them.
    - [issue_expiration]: issue "embeds identity and an expiration
      timestamp (now + ttl)", and the decoded expiration of a fresh token
      is "strictly in the future";
    - [payload_parse]: the bearer string "must losslessly round-trip
      {identity, expiration} through signing";
    - [issued_valid]: isValid is "true iff signature verifies against the
      known public key AND current time < embedded expiration", on a token
      this service signed;
    - [issued_user]: decodeIdentity "extracts the embedded identity". *)
Class TokenServiceLaws {ometa : metav1.ObjectMetaType} {codec : JSON}
    {tokens : types.TokenService} : Prop := {
  issue_expiration : forall (now : Time) (data : string) (tokenExp : Time),
    types.Expiration (types.NewToken now data) = inr tokenExp -> now < tokenExp;
  payload_parse : forall (now : Time) (data tokenData : string),
    types.Payload (types.NewToken now data) = inr tokenData ->
    exists token,
      types.Parse tokenData = inr token /\
      (forall now', types.TokenIsValid now' token
                    = types.TokenIsValid now' (types.NewToken now data)) /\
      types.GetUser token = types.GetUser (types.NewToken now data);
  issued_valid : forall (now now' : Time) (data : string) (tokenExp : Time),
    types.Expiration (types.NewToken now data) = inr tokenExp ->
    (types.TokenIsValid now' (types.NewToken now data) = true <-> now' < tokenExp);
  issued_user : forall (now : Time) (u : types.User) (data : string),
    Marshal_User (Some u) = inr data ->
    types.GetUser (types.NewToken now data) = inr u;
}.

(** ** A reference implementation of the interfaces

    A small directory, codec and token service that meet the interfaces
    above; the statements below are run on them at concrete requests. *)

Module ref.

(** *** A self-delimiting string encoding: [frame "ab" = ".a.b;"] *)

Fixpoint frame (s : string) : string :=
  match s with
  | EmptyString => ";"
  | String c s' => String "." (String c (frame s'))
  end.

Fixpoint unframe (w : string) : option (string * string) :=
  match w with
  | String ";" rest => Some (EmptyString, rest)
  | String "." (String c w') =>
      match unframe w' with
      | Some (s, rest) => Some (String c s, rest)
      | None => None
      end
  | _ => None
  end.

Definition frameZ (z : Z) : string :=
  frame (NilEmpty.string_of_int (Z.to_int z)).

Definition unframeZ (w : string) : option (Z * string) :=
  match unframe w with
  | Some (s, rest) =>
      match NilEmpty.int_of_string s with
      | Some d => Some (Z.of_int d, rest)
      | None => None
      end
  | None => None
  end.

Fixpoint frameList (l : list string) : string :=
  match l with
  | [] => "!"
  | x :: l' => String "," (frame x +:+ frameList l')
  end.

Fixpoint unframeList (fuel : nat) (w : string) : option (list string * string) :=
  match fuel, w with
  | S _, String "!" rest => Some ([], rest)
  | S fuel', String "," w' =>
      match unframe w' with
      | Some (x, w'') =>
          match unframeList fuel' w'' with
          | Some (l, rest) => Some (x :: l, rest)
          | None => None
          end
      | None => None
      end
  | _, _ => None
  end.

(** *** Library functions *)

(** [%s] replaced by the argument. *)
Fixpoint subst (format arg : string) : string :=
  match format with
  | String "%" (String "s" rest) => arg +:+ subst rest arg
  | String c rest => String c (subst rest arg)
  | EmptyString => EmptyString
  end.

#[export] Instance goLib : GoLib :=
  {| unicodeLower := fun s => s; Sprintf := subst |}.

Definition scopes : gmap string Z :=
  {[ "base" := 0; "one" := 1; "sub" := 2 ]}.

#[export] Instance scopeTable : ldap.ScopeTable := scopes.

#[export] Instance objectMeta : metav1.ObjectMetaType := string.

#[export] Instance errorTexts : server.ErrorTexts :=
  {| server.textNotAcceptable := "not acceptable";
     server.textDecodeFailed := "decode failed";
     server.textMalformedCredentials := "malformed credentials";
     server.textUnauthorized := "unauthorized";
     server.textMalformedToken := "malformed token";
     server.textServerError := "server error" |}.

(** *** The codec *)

Definition marshalUser (user : option types.User) : error + string :=
  match user with
  | None => inr "null"
  | Some u =>
      inr (String "U" (frame (types.Uid u) +:+ frame (types.DN u)
                       +:+ frameList (types.Groups u)))
  end.

Definition unmarshalUser (data : string) : error + types.User :=
  match data with
  | String "U" w =>
      match unframe w with
      | Some (uid, w1) =>
          match unframe w1 with
          | Some (dn, w2) =>
              match unframeList (S (String.length w2)) w2 with
              | Some (groups, EmptyString) =>
                  inr {| types.Uid := uid; types.DN := dn; types.Groups := groups |}
              | _ => inl "bad groups"
              end
          | None => inl "bad dn"
          end
      | None => inl "bad uid"
      end
  | _ => inr {| types.Uid := ""; types.DN := ""; types.Groups := [] |}
  end.

(** A credentials document is [frame username +:+ frame password]. *)
Definition decodeCredentials (body : string) : error + types.Credentials :=
  match unframe body with
  | Some (username, w) =>
      match unframe w with
      | Some (password, _) =>
          inr {| types.Username := username; types.Password := password |}
      | None => inl "bad password"
      end
  | None => inl "bad username"
  end.

Definition noUser : auth.UserInfo :=
  {| auth.Username := ""; auth.UID := ""; auth.Groups := []; auth.Extra := ∅ |}.

(** A token review document is [frame token], optionally followed by
    [frame name +:+ frame username] for [metadata.name] and
    [status.user.username]. *)
Definition decodeTokenReview (body : string) : error + auth.TokenReview :=
  match unframe body with
  | Some (token, w) =>
      let '(name, username) :=
        match unframe w with
        | Some (name, w') =>
            match unframe w' with
            | Some (username, _) => (name, username)
            | None => (name, "")
            end
        | None => ("", "")
        end in
      inr {| auth.TypeMeta := {| metav1.Kind := "TokenReview";
                                 metav1.APIVersion := "authentication.k8s.io/v1" |};
             auth.ObjectMeta := name;
             auth.Spec := {| auth.Token := token; auth.SpecAudiences := [] |};
             auth.Status := {| auth.Authenticated := false;
                               auth.User := {| auth.Username := username;
                                               auth.UID := "";
                                               auth.Groups := [];
                                               auth.Extra := ∅ |};
                               auth.StatusAudiences := [];
                               auth.Error := "" |} |}
  | None => inl "bad token review"
  end.

#[export] Instance json : JSON :=
  {| Marshal_User := marshalUser;
     Decode_Credentials := decodeCredentials;
     Decode_TokenReview := decodeTokenReview |}.

(** *** The token service: a keyed checksum stands for the signature *)

Record Token := {
  tokData : string;
  tokExp : Time;
  tokSig : Z;
}.

Fixpoint digest (acc : Z) (s : string) : Z :=
  match s with
  | EmptyString => acc
  | String c s' => digest ((acc * 31 + Z.of_N (N_of_ascii c)) mod 65521) s'
  end.

Definition signature (key : Z) (data : string) (exp : Time) : Z :=
  (key * (digest 7 data + exp)) mod 1000003.

#[export] Instance tokenService (key ttl : Z) : types.TokenService :=
  {| types.Token := Token;
     types.NewToken := fun now data =>
       {| tokData := data; tokExp := now + ttl;
          tokSig := signature key data (now + ttl) |};
     types.Payload := fun t =>
       inr (frameZ (tokExp t) +:+ frameZ (tokSig t) +:+ tokData t);
     types.Expiration := fun t => inr (tokExp t);
     types.Parse := fun w =>
       match unframeZ w with
       | Some (exp, w1) =>
           match unframeZ w1 with
           | Some (sig, data) => inr {| tokData := data; tokExp := exp; tokSig := sig |}
           | None => inl "bad signature"
           end
       | None => inl "bad expiration"
       end;
     types.TokenIsValid := fun now t =>
       (tokSig t =? signature key (tokData t) (tokExp t)) && (now <? tokExp t);
     types.GetUser := fun t => unmarshalUser (tokData t) |}.

(** *** The directory: a service account and a list of accounts *)

Record Account := {
  entry : goldap.Entry;
  secret : string;
}.

Record World := {
  serviceDN : string;
  servicePassword : string;
  accounts : list Account;
}.

Definition canBind (w : World) (dn password : string) : bool :=
  (String.eqb dn (serviceDN w) && String.eqb password (servicePassword w))
  || existsb (fun a => String.eqb dn (goldap.DN (entry a))
                       && String.eqb password (secret a)) (accounts w).

Definition matches (filter : string) (a : Account) : bool :=
  String.eqb filter ("(uid=" +:+ goldap.GetAttributeValue (entry a) "uid" +:+ ")").

#[export] Instance directory (w : World) : goldap.Directory :=
  {| goldap.Conn := unit;
     goldap.DialURL := fun _ => inr tt;
     goldap.Bind := fun c dn password =>
       (if canBind w dn password then None else Some "Invalid Credentials", c);
     goldap.ConnSearch := fun c r =>
       (inr {| goldap.Entries :=
                 map entry (List.filter (matches (goldap.Filter r)) (accounts w)) |}, c) |}.

Definition config : ldap.Ldap :=
  ldap.NewInstance "ldap://directory" "cn=service,dc=example,dc=com" "s3rv1ce"
    "dc=example,dc=com" "sub" "(uid=%s)" "memberOf" ["uid"; "memberOf"].

Definition srv : server.Instance := {| server.l := config |}.

Definition person (uid dn : string) (groups : list string) (password : string) : Account :=
  {| entry := {| goldap.DN := dn;
                 goldap.Attributes :=
                   [ {| goldap.Name := "uid"; goldap.Values := [uid] |};
                     {| goldap.Name := "memberOf"; goldap.Values := groups |} ] |};
     secret := password |}.

Definition world (people : list Account) : World :=
  {| serviceDN := "cn=service,dc=example,dc=com";
     servicePassword := "s3rv1ce";
     accounts := people |}.

Definition alice : Account :=
  person "Alice" "uid=Alice,ou=people,dc=example,dc=com"
    ["cn=platform-admins,ou=groups,dc=example,dc=com";
     "CN=Dev-Team,ou=groups,dc=example,dc=com"] "wonderland".

(** A second entry with the same uid. *)
Definition alice2 : Account :=
  person "Alice" "uid=Alice,ou=contractors,dc=example,dc=com" [] "looking-glass".

(** An entry whose group value has no [cn=] prefix. *)
Definition bob : Account :=
  person "bob" "uid=bob,ou=people,dc=example,dc=com"
    ["ou=groups,dc=example,dc=com"] "builder".

Definition jsonRequest (body : string) : http.Request :=
  {| http.ReqHeader := {[ server.ContentTypeHeader := [server.ContentTypeJSON] ]};
     http.Body := body |}.

Definition plainRequest (body : string) : http.Request :=
  {| http.ReqHeader := {[ server.ContentTypeHeader := ["text/plain"] ]};
     http.Body := body |}.

Definition credentialsBody (username password : string) : string :=
  frame username +:+ frame password.

Definition reviewBody (token name username : string) : string :=
  frame token +:+ frame name +:+ frame username.

(** The worlds and the token service of the examples: alice and bob;
    two entries for the uid Alice; a key and ten minutes of validity. *)
Definition people : goldap.Directory := directory (world [alice; bob]).
Definition twins : goldap.Directory := directory (world [alice; alice2]).
Definition tokens : types.TokenService := tokenService 4242 600.

(** What the token service hands out for alice at clock reading 1000. *)
Definition aliceUser : types.User :=
  {| types.Uid := "alice";
     types.DN := "uid=alice,ou=people,dc=example,dc=com";
     types.Groups := ["platform-admins"; "dev-team"] |}.

Definition aliceToken : string :=
  match marshalUser (Some aliceUser) with
  | inr data =>
      match types.Payload (TokenService := tokens)
              (types.NewToken (TokenService := tokens) 1000 data) with
      | inr tokenData => tokenData
      | inl _ => ""
      end
  | inl _ => ""
  end.

(** The same token service without its key: signing fails. *)
Definition keyless : types.TokenService :=
  {| types.Token := Token;
     types.NewToken := types.NewToken (TokenService := tokens);
     types.Payload := fun _ => inl "no signing key";
     types.Expiration := types.Expiration (TokenService := tokens);
     types.Parse := types.Parse (TokenService := tokens);
     types.TokenIsValid := types.TokenIsValid (TokenService := tokens);
     types.GetUser := types.GetUser (TokenService := tokens) |}.

End ref.

(** * Properties *)

(** ** Byte strings *)

Lemma stripPrefix_app (p r : string) : stripPrefix p (p +:+ r) = Some r.
Proof.
  induction p as [|a p IH]; simpl; [reflexivity|].
  rewrite Ascii.eqb_refl. exact IH.
Qed.

Lemma stripPrefix_Some (p s r : string) : stripPrefix p s = Some r -> s = p +:+ r.
Proof.
  revert s. induction p as [|a p IH]; intros s; simpl.
  - intros [= ->]. reflexivity.
  - destruct s as [|b s]; [discriminate|].
    destruct (Ascii.eqb a b) eqn:E; [|discriminate].
    apply Ascii.eqb_eq in E. subst b. intros Hs.
    rewrite (IH s Hs). reflexivity.
Qed.

Lemma takeWhile_app (p : ascii -> bool) (name rest : string) :
  allBytes p name = true -> stops p rest -> takeWhile p (name +:+ rest) = name.
Proof.
  induction name as [|c name IH]; simpl; intros Hall Hstop.
  - destruct rest as [|c rest]; simpl in *; [reflexivity|]. now rewrite Hstop.
  - apply andb_true_iff in Hall as [Hc Hall]. rewrite Hc. f_equal. auto.
Qed.

Lemma takeWhile_all (p : ascii -> bool) (s : string) :
  allBytes p (takeWhile p s) = true.
Proof.
  induction s as [|c s IH]; simpl; [reflexivity|].
  destruct (p c) eqn:E; simpl; [|reflexivity]. now rewrite E.
Qed.

(** A run cut at the first comma and made of class bytes is the run of
    class bytes. *)
Lemma takeWhile_class_comma (s : string) :
  allBytes regexp.cnClass (takeWhile ldap.notComma s) = true ->
  takeWhile regexp.cnClass s = takeWhile ldap.notComma s.
Proof.
  induction s as [|c s IH]; simpl; [reflexivity|].
  unfold ldap.notComma at 1 3.
  destruct (Ascii.eqb c ",") eqn:E; simpl.
  - apply Ascii.eqb_eq in E. subst c. reflexivity.
  - intros Hall. apply andb_true_iff in Hall as [Hc Hall].
    rewrite Hc. f_equal. auto.
Qed.

Lemma lowerByte_not_upper (c : ascii) : isUpperByte (lowerByte c) = false.
Proof. destruct c as [[] [] [] [] [] [] [] []]; reflexivity. Qed.

Lemma mapBytes_lower_no_upper (s : string) :
  allBytes (fun c => negb (isUpperByte c)) (mapBytes lowerByte s) = true.
Proof.
  induction s as [|c s IH]; simpl; [reflexivity|].
  now rewrite lowerByte_not_upper, IH.
Qed.

(** ** The pattern and [sanitize] *)

Section ldap_facts.
Context {golib : GoLib} {dir : goldap.Directory} {scopetab : ldap.ScopeTable}.

Lemma ToLower_ascii (s : string) :
  isASCII s = true -> strings.ToLower s = mapBytes lowerByte s.
Proof. unfold strings.ToLower. now intros ->. Qed.

(** On ASCII text the result of [ToLower] has no upper-case letter. *)
Lemma ToLower_no_upper (s : string) :
  isASCII s = true ->
  allBytes (fun c => negb (isUpperByte c)) (strings.ToLower s) = true.
Proof. intros Hs. rewrite ToLower_ascii by exact Hs. apply mapBytes_lower_no_upper. Qed.

Lemma FindStringSubmatch_match (name rest : string) :
  name <> EmptyString -> allBytes regexp.cnClass name = true ->
  stops regexp.cnClass rest ->
  regexp.FindStringSubmatch ("cn=" +:+ name +:+ rest) = ["cn=" +:+ name; name].
Proof.
  intros Hne Hall Hstop. unfold regexp.FindStringSubmatch.
  rewrite stripPrefix_app, takeWhile_app by assumption.
  destruct name; [congruence|reflexivity].
Qed.

Lemma index_nil {A : Type} (i : nat) :
  index (@nil A) i = Panic "runtime error: index out of range".
Proof. reflexivity. Qed.

(** The loop panics at the first value that does not match, whatever
    was collected before. *)
Lemma sanitize_from_panics (a res : list string) (value : string) :
  In value a ->
  regexp.FindStringSubmatch (strings.ToLower value) = [] ->
  exists msg, ldap.sanitize_from res a = Panic msg.
Proof.
  revert res. induction a as [|item a IH]; intros res Hin Hno; [destruct Hin|].
  simpl. destruct Hin as [->|Hin].
  - rewrite Hno. eexists. reflexivity.
  - destruct (index _ 1) as [name|msg]; simpl.
    + apply IH; assumption.
    + eexists. reflexivity.
Qed.

Lemma sanitize_single (value name : string) (whole : string) :
  regexp.FindStringSubmatch (strings.ToLower value) = [whole; name] ->
  ldap.sanitize [value] = Ret [name].
Proof.
  intros Hm. unfold ldap.sanitize. simpl. rewrite Hm. reflexivity.
Qed.

End ldap_facts.

(** ** [Search] *)

Section search_facts.
Context {golib : GoLib} {dir : goldap.Directory} {scopetab : ldap.ScopeTable}.

Lemma index_0_singleton {A : Type} (a : list A) :
  (length a =? 0)%nat = false -> (1 <? length a)%nat = false ->
  exists x, a = [x] /\ index a 0 = Ret x.
Proof.
  destruct a as [|x [|y a]]; simpl; intros Hzero Hmany; try discriminate.
  exists x. split; reflexivity.
Qed.

(** [searchOn] when the service bind and the search succeed, by the
    number of entries. *)
Lemma searchOn_entries (s : ldap.Ldap) (username password : string)
    (l0 l1 l2 : goldap.Conn) (result : goldap.SearchResult) :
  goldap.Bind l0 (ldap.bindDN s) (ldap.bindPassword s) = (None, l1) ->
  goldap.ConnSearch l1 (ldap.searchRequestFor s username) = (inr result, l2) ->
  ldap.searchOn s l0 username password =
    match goldap.Entries result with
    | [] => (ldap.searched s username, Ret (None, None))
    | [entry] =>
        (ldap.searched s username ++ [goldap.EvBind (goldap.DN entry) password],
         match goldap.Bind l2 (goldap.DN entry) password with
         | (Some err, _) => Ret (None, Some err)
         | (None, _) =>
             groups ← ldap.sanitize
                        (goldap.GetAttributeValues entry (ldap.memberOfProperty s));
             Ret (Some {| types.Uid :=
                            strings.ToLower (goldap.GetAttributeValue entry "uid");
                          types.DN := strings.ToLower (goldap.DN entry);
                          types.Groups := groups |}, None)
         end)
    | _ :: _ :: _ =>
        (ldap.searched s username, Ret (None, Some "Too many entries returned"))
    end.
Proof.
  intros Hbind Hsearch. unfold ldap.searchOn. cbv zeta.
  rewrite Hbind, Hsearch.
  destruct (goldap.Entries result) as [|entry [|entry' rest]]; simpl; try reflexivity.
  destruct (goldap.Bind l2 (goldap.DN entry) password) as [[err|] l3]; reflexivity.
Qed.

Lemma Search_dialled (s : ldap.Ldap) (username password : string) (l0 : goldap.Conn) :
  goldap.DialURL (ldap.ldapURL s) = inr l0 ->
  ldap.Search s username password =
    (goldap.EvDial (ldap.ldapURL s)
       :: (ldap.searchOn s l0 username password).1 ++ [goldap.EvClose],
     (ldap.searchOn s l0 username password).2).
Proof.
  intros Hdial. unfold ldap.Search. rewrite Hdial.
  destruct (ldap.searchOn s l0 username password); reflexivity.
Qed.

(** Whenever [Search] hands back a user, the directory search had
    exactly one entry and the user is built from it. *)
Lemma Search_user_inv (s : ldap.Ldap) (username password : string)
    (evs : list goldap.Event) (user : types.User) (err : option error) :
  ldap.Search s username password = (evs, Ret (Some user, err)) ->
  exists l0 l1 l2 result entry groups,
    goldap.DialURL (ldap.ldapURL s) = inr l0 /\
    goldap.Bind l0 (ldap.bindDN s) (ldap.bindPassword s) = (None, l1) /\
    goldap.ConnSearch l1 (ldap.searchRequestFor s username) = (inr result, l2) /\
    goldap.Entries result = [entry] /\
    (goldap.Bind l2 (goldap.DN entry) password).1 = None /\
    ldap.sanitize (goldap.GetAttributeValues entry (ldap.memberOfProperty s))
      = Ret groups /\
    err = None /\
    user = {| types.Uid := strings.ToLower (goldap.GetAttributeValue entry "uid");
              types.DN := strings.ToLower (goldap.DN entry);
              types.Groups := groups |}.
Proof.
  unfold ldap.Search.
  destruct (goldap.DialURL (ldap.ldapURL s)) as [e0|l0] eqn:Hdial; [intros [=]|].
  destruct (ldap.searchOn s l0 username password) as [evs' r] eqn:Hon.
  intros [= <- ->]. revert Hon. unfold ldap.searchOn. cbv zeta.
  destruct (goldap.Bind l0 _ _) as [[e1|] l1] eqn:Hbind; [intros [=]|].
  destruct (goldap.ConnSearch l1 _) as [[e2|result] l2] eqn:Hsearch; [intros [=]|].
  destruct (length (goldap.Entries result) =? 0)%nat eqn:Hzero; [intros [=]|].
  destruct (1 <? length (goldap.Entries result))%nat eqn:Hmany; [intros [=]|].
  destruct (index_0_singleton _ Hzero Hmany) as (entry & Hentries & ->).
  destruct (goldap.Bind l2 (goldap.DN entry) password) as [[e3|] l3] eqn:Hbind2;
    [intros [=]|].
  destruct (ldap.sanitize _) as [groups|msg] eqn:Hgroups; [|intros [=]].
  simpl. intros [= <- <- <-].
  exists l0, l1, l2, result, entry, groups.
  rewrite Hbind2. repeat split; assumption || reflexivity.
Qed.

End search_facts.

(** ** The reference implementation meets the contract *)

Lemma append_nil (b : string) : "" +:+ b = b.
Proof. reflexivity. Qed.

Lemma append_cons (x : ascii) (a b : string) : String x a +:+ b = String x (a +:+ b).
Proof. reflexivity. Qed.

Lemma append_assoc (a b c : string) : (a +:+ b) +:+ c = a +:+ (b +:+ c).
Proof.
  induction a as [|x a IH]; [reflexivity|].
  rewrite !append_cons. f_equal. exact IH.
Qed.

Lemma append_empty_r (a : string) : a +:+ "" = a.
Proof.
  induction a as [|x a IH]; [reflexivity|].
  rewrite append_cons. f_equal. exact IH.
Qed.

Lemma length_append (a b : string) :
  String.length (a +:+ b) = (String.length a + String.length b)%nat.
Proof.
  induction a as [|x a IH]; [reflexivity|].
  rewrite append_cons. simpl. now rewrite IH.
Qed.

Lemma unframe_frame (s rest : string) :
  ref.unframe (ref.frame s +:+ rest) = Some (s, rest).
Proof.
  induction s as [|c s IH]; [reflexivity|].
  simpl ref.frame. rewrite !append_cons. simpl. now rewrite IH.
Qed.

Lemma unframeZ_frameZ (z : Z) (rest : string) :
  ref.unframeZ (ref.frameZ z +:+ rest) = Some (z, rest).
Proof.
  unfold ref.unframeZ, ref.frameZ.
  rewrite unframe_frame, NilEmpty.isi, DecimalZ.of_to. reflexivity.
Qed.

Lemma unframeList_frameList (l : list string) (rest : string) (fuel : nat) :
  (length l < fuel)%nat ->
  ref.unframeList fuel (ref.frameList l +:+ rest) = Some (l, rest).
Proof.
  revert fuel. induction l as [|x l IH]; intros [|fuel] Hfuel; simpl in Hfuel; try lia.
  - reflexivity.
  - simpl ref.frameList. rewrite append_cons, append_assoc. simpl.
    rewrite unframe_frame, IH by lia. reflexivity.
Qed.

Lemma frameList_length (l : list string) :
  (length l < String.length (ref.frameList l))%nat.
Proof.
  induction l as [|x l IH]; simpl; [lia|].
  rewrite length_append. lia.
Qed.

Lemma unmarshal_marshal (u : types.User) (data : string) :
  ref.marshalUser (Some u) = inr data -> ref.unmarshalUser data = inr u.
Proof.
  destruct u as [uid dn groups]. simpl. intros [= <-].
  unfold ref.unmarshalUser.
  rewrite unframe_frame, unframe_frame.
  rewrite <- (append_empty_r (ref.frameList groups)) at 2.
  rewrite unframeList_frameList; [reflexivity|].
  pose proof (frameList_length groups). lia.
Qed.

Lemma ref_token_laws (key ttl : Z) :
  0 < ttl -> TokenServiceLaws (codec := ref.json) (tokens := ref.tokenService key ttl).
Proof.
  intros Httl. split.
  - intros now data tokenExp. simpl. intros [= <-]. lia.
  - intros now data tokenData. simpl. intros [= <-].
    eexists. rewrite !unframeZ_frameZ. split; [reflexivity|]. split; reflexivity.
  - intros now now' data tokenExp. simpl. intros [= <-].
    rewrite Z.eqb_refl. simpl. apply Z.ltb_lt.
  - intros now u data Hm. simpl. now apply unmarshal_marshal.
Qed.

(** ** The handlers *)

Section server_facts.
Context {golib : GoLib} {dir : goldap.Directory} {scopetab : ldap.ScopeTable}.
Context {ometa : metav1.ObjectMetaType} {codec : JSON} {tokens : types.TokenService}
  {texts : server.ErrorTexts}.

Lemma writeError_fresh (err : server.ServerError) :
  server.writeError http.NewResponseWriter err =
    {| http.WHeader := ∅;
       http.WStatus := Some (server.s err);
       http.WBody := [http.Text (server.e err)] |}.
Proof. reflexivity. Qed.

Lemma write_json_fresh (w : http.Written) :
  http.Write (http.HeaderSet http.NewResponseWriter
                server.ContentTypeHeader server.ContentTypeJSON) w =
    {| http.WHeader := http.Set_ ∅ server.ContentTypeHeader server.ContentTypeJSON;
       http.WStatus := Some http.StatusOK;
       http.WBody := [w] |}.
Proof. reflexivity. Qed.

Lemma content_type_eqb (req : http.Request) :
  http.Get (http.ReqHeader req) server.ContentTypeHeader = server.ContentTypeJSON ->
  negb (String.eqb (http.Get (http.ReqHeader req) server.ContentTypeHeader)
          server.ContentTypeJSON) = false.
Proof. intros ->. reflexivity. Qed.

(** The tail of [authenticate] answers 200 with a credential or 500. *)
Lemma issue_status (now : Time) (user : option types.User) :
  http.WStatus (server.issue now http.NewResponseWriter user) = Some 200 \/
  http.WStatus (server.issue now http.NewResponseWriter user) = Some 500.
Proof.
  unfold server.issue.
  destruct (Marshal_User user) as [?|data]; [right; reflexivity|].
  destruct (types.Payload _) as [?|tokenData]; [right; reflexivity|].
  destruct (types.Expiration _) as [?|tokenExp]; [right; reflexivity|].
  left. reflexivity.
Qed.

Lemma issue_ok (now : Time) (user : option types.User)
    (data tokenData : string) (tokenExp : Time) :
  Marshal_User user = inr data ->
  types.Payload (types.NewToken now data) = inr tokenData ->
  types.Expiration (types.NewToken now data) = inr tokenExp ->
  server.issue now http.NewResponseWriter user =
    {| http.WHeader := http.Set_ ∅ server.ContentTypeHeader server.ContentTypeJSON;
       http.WStatus := Some 200;
       http.WBody := [http.ExecCredentialJSON (server.credentialOf tokenData tokenExp)] |}.
Proof.
  intros Hm Hp He. unfold server.issue. rewrite Hm, Hp, He. reflexivity.
Qed.

Lemma issue_inv (now : Time) (user : option types.User) (ec : client.ExecCredential) :
  In (http.ExecCredentialJSON ec)
     (http.WBody (server.issue now http.NewResponseWriter user)) ->
  exists data tokenData tokenExp,
    Marshal_User user = inr data /\
    types.Payload (types.NewToken now data) = inr tokenData /\
    types.Expiration (types.NewToken now data) = inr tokenExp /\
    ec = server.credentialOf tokenData tokenExp.
Proof.
  unfold server.issue.
  destruct (Marshal_User user) as [?|data]; [intros [[=]|[]]|].
  destruct (types.Payload _) as [?|tokenData] eqn:Hp; [intros [[=]|[]]|].
  destruct (types.Expiration _) as [?|tokenExp] eqn:He; [intros [[=]|[]]|].
  intros [[= <-]|[]]. exists data, tokenData, tokenExp. repeat split; assumption.
Qed.

(** [authenticate] once the content type and the credentials are
    accepted: the directory round trip decides. *)
Lemma authenticate_accepted (srv : server.Instance) (now : Time) (req : http.Request)
    (credentials : types.Credentials) :
  http.Get (http.ReqHeader req) server.ContentTypeHeader = server.ContentTypeJSON ->
  Decode_Credentials (http.Body req) = inr credentials ->
  types.IsValid credentials = true ->
  server.authenticate srv now http.NewResponseWriter req =
    match ldap.Search (server.l srv) (types.Username credentials)
            (types.Password credentials) with
    | (evs, Panic msg) => (evs, Panic msg)
    | (evs, Ret (_, Some _)) =>
        (evs, Ret (server.writeError http.NewResponseWriter server.ErrUnauthorized))
    | (evs, Ret (user, None)) =>
        (evs, Ret (server.issue now http.NewResponseWriter user))
    end.
Proof.
  intros Hct Hdec Hvalid. unfold server.authenticate.
  rewrite (content_type_eqb _ Hct), Hdec, Hvalid. reflexivity.
Qed.

(** [validate] once the content type and the body are accepted. *)
Lemma validate_accepted (srv : server.Instance) (now : Time) (req : http.Request)
    (tr : auth.TokenReview) :
  http.Get (http.ReqHeader req) server.ContentTypeHeader = server.ContentTypeJSON ->
  Decode_TokenReview (http.Body req) = inr tr ->
  server.validate srv now http.NewResponseWriter req =
    match types.Parse (auth.Token (auth.Spec tr)) with
    | inl _ => server.writeError http.NewResponseWriter server.ErrMalformedToken
    | inr token =>
        if types.TokenIsValid now token then
          match types.GetUser token with
          | inl _ => server.writeError http.NewResponseWriter server.ErrServerError
          | inr user =>
              {| http.WHeader :=
                   http.Set_ ∅ server.ContentTypeHeader server.ContentTypeJSON;
                 http.WStatus := Some 200;
                 http.WBody :=
                   [http.TokenReviewJSON
                      (auth.setUser {| auth.Username := types.Uid user;
                                       auth.UID := types.DN user;
                                       auth.Groups := types.Groups user;
                                       auth.Extra := ∅ |}
                         (auth.setAuthenticated true tr))] |}
          end
        else
          {| http.WHeader := http.Set_ ∅ server.ContentTypeHeader server.ContentTypeJSON;
             http.WStatus := Some 200;
             http.WBody := [http.TokenReviewJSON (auth.setAuthenticated false tr)] |}
    end.
Proof.
  intros Hct Hdec. unfold server.validate.
  rewrite (content_type_eqb _ Hct), Hdec.
  destruct (types.Parse _) as [?|token]; [reflexivity|].
  destruct (types.TokenIsValid now token); simpl; [|reflexivity].
  destruct (types.GetUser token); reflexivity.
Qed.

(** The sibling path of a user that is found but whose bind fails: the
    wrong password is an error of [Search], and the answer is 401. *)
Lemma wrong_password_unauthorized (srv : server.Instance) (now : Time)
    (req : http.Request) (credentials : types.Credentials)
    (l0 l1 l2 l3 : goldap.Conn) (result : goldap.SearchResult)
    (entry : goldap.Entry) (err : error) :
  http.Get (http.ReqHeader req) server.ContentTypeHeader = server.ContentTypeJSON ->
  Decode_Credentials (http.Body req) = inr credentials ->
  types.IsValid credentials = true ->
  goldap.DialURL (ldap.ldapURL (server.l srv)) = inr l0 ->
  goldap.Bind l0 (ldap.bindDN (server.l srv)) (ldap.bindPassword (server.l srv))
    = (None, l1) ->
  goldap.ConnSearch l1
    (ldap.searchRequestFor (server.l srv) (types.Username credentials))
    = (inr result, l2) ->
  goldap.Entries result = [entry] ->
  goldap.Bind l2 (goldap.DN entry) (types.Password credentials) = (Some err, l3) ->
  exists evs,
    server.authenticate srv now http.NewResponseWriter req
      = (evs, Ret (server.writeError http.NewResponseWriter server.ErrUnauthorized)).
Proof.
  intros Hct Hdec Hvalid Hdial Hbind Hsearch Hone Hbind2.
  rewrite (authenticate_accepted srv now req credentials Hct Hdec Hvalid).
  rewrite (Search_dialled _ _ _ l0 Hdial).
  rewrite (searchOn_entries _ _ _ l0 l1 l2 result Hbind Hsearch), Hone, Hbind2.
  eexists. reflexivity.
Qed.

(** A panic of [Search] ends the handler: nothing is written. *)
Lemma authenticate_panics (srv : server.Instance) (now : Time)
    (req : http.Request) (credentials : types.Credentials)
    (evs : list goldap.Event) (msg : string) :
  http.Get (http.ReqHeader req) server.ContentTypeHeader = server.ContentTypeJSON ->
  Decode_Credentials (http.Body req) = inr credentials ->
  types.IsValid credentials = true ->
  ldap.Search (server.l srv) (types.Username credentials) (types.Password credentials)
    = (evs, Panic msg) ->
  server.authenticate srv now http.NewResponseWriter req = (evs, Panic msg).
Proof.
  intros Hct Hdec Hvalid HS.
  rewrite (authenticate_accepted srv now req credentials Hct Hdec Hvalid), HS.
  reflexivity.
Qed.

End server_facts.

(** * The claims *)

Section claims.
Context {golib : GoLib} {dir : goldap.Directory} {scopetab : ldap.ScopeTable}.
Context {ometa : metav1.ObjectMetaType} {codec : JSON} {tokens : types.TokenService}
  {texts : server.ErrorTexts}.

(** C1: a username that matches no directory entry.  [Search] returns a
    nil user with a nil error, and [authenticate], which only looks at
    the error, goes on to [issue] with the nil user: the answer is never
    401, and when marshalling the nil pointer and signing succeed it is
    200 with a token.  The claim asks for 401 and no token. *)
Theorem C1_no_match_issues_token (srv : server.Instance) (now : Time)
    (req : http.Request) (credentials : types.Credentials)
    (l0 l1 l2 : goldap.Conn) (result : goldap.SearchResult) :
  http.Get (http.ReqHeader req) server.ContentTypeHeader = server.ContentTypeJSON ->
  Decode_Credentials (http.Body req) = inr credentials ->
  types.IsValid credentials = true ->
  goldap.DialURL (ldap.ldapURL (server.l srv)) = inr l0 ->
  goldap.Bind l0 (ldap.bindDN (server.l srv)) (ldap.bindPassword (server.l srv))
    = (None, l1) ->
  goldap.ConnSearch l1
    (ldap.searchRequestFor (server.l srv) (types.Username credentials))
    = (inr result, l2) ->
  goldap.Entries result = [] ->
  exists evs res,
    server.authenticate srv now http.NewResponseWriter req = (evs, Ret res) /\
    res = server.issue now http.NewResponseWriter None /\
    http.WStatus res <> Some 401 /\
    forall data tokenData tokenExp,
      Marshal_User None = inr data ->
      types.Payload (types.NewToken now data) = inr tokenData ->
      types.Expiration (types.NewToken now data) = inr tokenExp ->
      http.WStatus res = Some 200 /\
      http.WBody res = [http.ExecCredentialJSON (server.credentialOf tokenData tokenExp)].
Proof.
  intros Hct Hdec Hvalid Hdial Hbind Hsearch Hnone.
  rewrite (authenticate_accepted srv now req credentials Hct Hdec Hvalid).
  rewrite (Search_dialled _ _ _ l0 Hdial).
  rewrite (searchOn_entries _ _ _ l0 l1 l2 result Hbind Hsearch), Hnone.
  simpl. eexists _, _. split; [reflexivity|]. split; [reflexivity|]. split.
  - destruct (issue_status now None) as [-> | ->]; discriminate.
  - intros data tokenData tokenExp Hm Hp He.
    rewrite (issue_ok now None data tokenData tokenExp Hm Hp He). split; reflexivity.
Qed.

(** C3: a directory entry with a group value that does not match the
    pattern.  [sanitize] indexes the nil slice of the failed match, so
    [Search] ends in a panic, not in an error.  The claim asks for a
    typed error. *)
Theorem C3_nonmatching_group_panics (s : ldap.Ldap) (username password : string)
    (l0 l1 l2 : goldap.Conn) (result : goldap.SearchResult)
    (entry : goldap.Entry) (value : string) :
  goldap.DialURL (ldap.ldapURL s) = inr l0 ->
  goldap.Bind l0 (ldap.bindDN s) (ldap.bindPassword s) = (None, l1) ->
  goldap.ConnSearch l1 (ldap.searchRequestFor s username) = (inr result, l2) ->
  goldap.Entries result = [entry] ->
  (goldap.Bind l2 (goldap.DN entry) password).1 = None ->
  In value (goldap.GetAttributeValues entry (ldap.memberOfProperty s)) ->
  regexp.FindStringSubmatch (strings.ToLower value) = [] ->
  exists evs msg, ldap.Search s username password = (evs, Panic msg).
Proof.
  intros Hdial Hbind Hsearch Hone Hbind2 Hin Hno.
  rewrite (Search_dialled _ _ _ l0 Hdial).
  rewrite (searchOn_entries _ _ _ l0 l1 l2 result Hbind Hsearch), Hone.
  destruct (goldap.Bind l2 (goldap.DN entry) password) as [err l3].
  simpl in Hbind2. subst err.
  destruct (sanitize_from_panics _ [] value Hin Hno) as [msg Hmsg].
  unfold ldap.sanitize. simpl. rewrite Hmsg. eexists _, msg. reflexivity.
Qed.

(** C4: a username that matches two or more entries.  [Search] stops
    with an error right after the directory search, binding as none of
    the matched entries, and [authenticate] answers 401 with the text of
    [ErrUnauthorized] and no credential. *)
Theorem C4_ambiguous_unauthorized (srv : server.Instance) (now : Time)
    (req : http.Request) (credentials : types.Credentials)
    (l0 l1 l2 : goldap.Conn) (result : goldap.SearchResult) :
  http.Get (http.ReqHeader req) server.ContentTypeHeader = server.ContentTypeJSON ->
  Decode_Credentials (http.Body req) = inr credentials ->
  types.IsValid credentials = true ->
  goldap.DialURL (ldap.ldapURL (server.l srv)) = inr l0 ->
  goldap.Bind l0 (ldap.bindDN (server.l srv)) (ldap.bindPassword (server.l srv))
    = (None, l1) ->
  goldap.ConnSearch l1
    (ldap.searchRequestFor (server.l srv) (types.Username credentials))
    = (inr result, l2) ->
  (2 <= length (goldap.Entries result))%nat ->
  ldap.Search (server.l srv) (types.Username credentials) (types.Password credentials)
    = (goldap.EvDial (ldap.ldapURL (server.l srv))
         :: ldap.searched (server.l srv) (types.Username credentials)
         ++ [goldap.EvClose],
       Ret (None, Some "Too many entries returned")) /\
  exists res,
    server.authenticate srv now http.NewResponseWriter req
      = (goldap.EvDial (ldap.ldapURL (server.l srv))
           :: ldap.searched (server.l srv) (types.Username credentials)
           ++ [goldap.EvClose],
         Ret res) /\
    http.WStatus res = Some 401 /\
    http.WBody res = [http.Text server.textUnauthorized].
Proof.
  intros Hct Hdec Hvalid Hdial Hbind Hsearch Hmany.
  assert (HS : ldap.Search (server.l srv) (types.Username credentials)
                 (types.Password credentials)
               = (goldap.EvDial (ldap.ldapURL (server.l srv))
                    :: ldap.searched (server.l srv) (types.Username credentials)
                    ++ [goldap.EvClose],
                  Ret (None, Some "Too many entries returned"))).
  { rewrite (Search_dialled _ _ _ l0 Hdial).
    rewrite (searchOn_entries _ _ _ l0 l1 l2 result Hbind Hsearch).
    destruct (goldap.Entries result) as [|e1 [|e2 rest]]; simpl in Hmany; try lia.
    reflexivity. }
  split; [exact HS|].
  rewrite (authenticate_accepted srv now req credentials Hct Hdec Hvalid), HS.
  eexists. split; [reflexivity|]. split; reflexivity.
Qed.

End claims.

Section claims_requests.
Context {golib : GoLib} {dir : goldap.Directory} {scopetab : ldap.ScopeTable}.
Context {ometa : metav1.ObjectMetaType} {codec : JSON} {tokens : types.TokenService}
  {texts : server.ErrorTexts}.

(** C8: a request to /auth or to /token whose Content-Type is not
    application/json is answered 406, whatever its body; the directory
    is not contacted. *)
Theorem C8_not_json_not_acceptable (srv : server.Instance) (now : Time)
    (req : http.Request) :
  http.Get (http.ReqHeader req) server.ContentTypeHeader <> server.ContentTypeJSON ->
  (exists res,
      server.authenticate srv now http.NewResponseWriter req = ([], Ret res) /\
      http.WStatus res = Some 406) /\
  http.WStatus (server.validate srv now http.NewResponseWriter req) = Some 406.
Proof.
  intros Hct. apply String.eqb_neq in Hct.
  unfold server.authenticate, server.validate. rewrite Hct. simpl.
  split; [|reflexivity]. eexists. split; reflexivity.
Qed.

(** C9: credentials that decode with an empty username or an empty
    password are answered 400, and no directory operation has taken
    place. *)
Theorem C9_empty_field_bad_request (srv : server.Instance) (now : Time)
    (req : http.Request) (credentials : types.Credentials) :
  http.Get (http.ReqHeader req) server.ContentTypeHeader = server.ContentTypeJSON ->
  Decode_Credentials (http.Body req) = inr credentials ->
  types.Username credentials = "" \/ types.Password credentials = "" ->
  exists res,
    server.authenticate srv now http.NewResponseWriter req = ([], Ret res) /\
    http.WStatus res = Some 400.
Proof.
  intros Hct Hdec Hempty. unfold server.authenticate.
  rewrite (content_type_eqb _ Hct), Hdec.
  assert (Hinvalid : types.IsValid credentials = false).
  { unfold types.IsValid. destruct Hempty as [-> | ->]; simpl.
    - reflexivity.
    - apply andb_false_r. }
  rewrite Hinvalid. simpl. eexists. split; reflexivity.
Qed.

(** C5 (as amended): a parseable token that is not valid gets a
    successful review, 200 with authenticated=false, and the handler
    writes no identity: [Status.User] of the response is the one of the
    request. *)
Theorem C5_invalid_token_reviewed (srv : server.Instance) (now : Time)
    (req : http.Request) (tr : auth.TokenReview) (token : types.Token) :
  http.Get (http.ReqHeader req) server.ContentTypeHeader = server.ContentTypeJSON ->
  Decode_TokenReview (http.Body req) = inr tr ->
  types.Parse (auth.Token (auth.Spec tr)) = inr token ->
  types.TokenIsValid now token = false ->
  exists tr',
    http.WStatus (server.validate srv now http.NewResponseWriter req) = Some 200 /\
    http.WBody (server.validate srv now http.NewResponseWriter req)
      = [http.TokenReviewJSON tr'] /\
    auth.Authenticated (auth.Status tr') = false /\
    auth.User (auth.Status tr') = auth.User (auth.Status tr).
Proof.
  intros Hct Hdec Hparse Hinvalid.
  rewrite (validate_accepted srv now req tr Hct Hdec), Hparse, Hinvalid.
  eexists. repeat split.
Qed.

(** C6: the review object written by /token is the decoded request
    object in which only [Status.Authenticated] and, for a valid token,
    [Status.User] were assigned; every other field, and [Status.User]
    when the token is not valid, is the request's. *)
Theorem C6_review_echoes_request (srv : server.Instance) (now : Time)
    (req : http.Request) (tr' : auth.TokenReview) :
  In (http.TokenReviewJSON tr')
     (http.WBody (server.validate srv now http.NewResponseWriter req)) ->
  exists tr,
    Decode_TokenReview (http.Body req) = inr tr /\
    http.WBody (server.validate srv now http.NewResponseWriter req)
      = [http.TokenReviewJSON tr'] /\
    auth.TypeMeta tr' = auth.TypeMeta tr /\
    auth.ObjectMeta tr' = auth.ObjectMeta tr /\
    auth.Spec tr' = auth.Spec tr /\
    auth.StatusAudiences (auth.Status tr') = auth.StatusAudiences (auth.Status tr) /\
    auth.Error (auth.Status tr') = auth.Error (auth.Status tr) /\
    (auth.Authenticated (auth.Status tr') = false ->
     auth.User (auth.Status tr') = auth.User (auth.Status tr)) /\
    (auth.Authenticated (auth.Status tr') = true ->
     exists token user,
       types.Parse (auth.Token (auth.Spec tr)) = inr token /\
       types.TokenIsValid now token = true /\
       types.GetUser token = inr user /\
       auth.User (auth.Status tr') =
         {| auth.Username := types.Uid user; auth.UID := types.DN user;
            auth.Groups := types.Groups user; auth.Extra := ∅ |}).
Proof.
  unfold server.validate.
  destruct (negb _); [intros [[=]|[]]|].
  destruct (Decode_TokenReview (http.Body req)) as [?|tr]; [intros [[=]|[]]|].
  destruct (types.Parse _) as [?|token] eqn:Hparse; [intros [[=]|[]]|].
  destruct (types.TokenIsValid now token) eqn:Hvalid; simpl.
  - destruct (types.GetUser token) as [?|user] eqn:Huser; [intros [[=]|[]]|].
    intros [[= <-]|[]]. exists tr. simpl. repeat split; try discriminate.
    intros _. exists token, user. repeat split; assumption.
  - intros [[= <-]|[]]. exists tr. simpl. repeat split; discriminate.
Qed.

(** C10: the user [Search] returns is built from the single entry of
    the directory search, with [Uid] the lowercase of its uid attribute
    and [DN] the lowercase of its DN; on ASCII text neither keeps an
    upper-case letter. *)
Theorem C10_identity_lowercased (s : ldap.Ldap) (username password : string)
    (evs : list goldap.Event) (user : types.User) :
  ldap.Search s username password = (evs, Ret (Some user, None)) ->
  exists l1 l2 result entry,
    goldap.ConnSearch l1 (ldap.searchRequestFor s username) = (inr result, l2) /\
    goldap.Entries result = [entry] /\
    types.Uid user = strings.ToLower (goldap.GetAttributeValue entry "uid") /\
    types.DN user = strings.ToLower (goldap.DN entry) /\
    (isASCII (goldap.GetAttributeValue entry "uid") = true ->
     allBytes (fun c => negb (isUpperByte c)) (types.Uid user) = true) /\
    (isASCII (goldap.DN entry) = true ->
     allBytes (fun c => negb (isUpperByte c)) (types.DN user) = true).
Proof.
  intros HS.
  destruct (Search_user_inv _ _ _ _ _ _ HS)
    as (l0 & l1 & l2 & result & entry & groups & _ & _ & Hsearch & Hone & _ & _ & _ & ->).
  exists l1, l2, result, entry. simpl.
  repeat split; try assumption; apply ToLower_no_upper.
Qed.

(** C7 (as amended): a value that reads [cn=<name>,...] once lowercased,
    with a non-empty name made of the pattern's bytes only (a to z, 0 to
    9 and the hyphen), yields exactly that name. *)
Theorem C7_group_name_extracted (value name : string) :
  ldap.spec_groupName value = Some name ->
  name <> "" ->
  allBytes regexp.cnClass name = true ->
  ldap.sanitize [value] = Ret [name].
Proof.
  unfold ldap.spec_groupName.
  destruct (stripPrefix "cn=" (strings.ToLower value)) as [rest|] eqn:Hpre; [|discriminate].
  intros [= <-] Hne Hall.
  apply (sanitize_single value _ ("cn=" +:+ takeWhile ldap.notComma rest)).
  unfold regexp.FindStringSubmatch. rewrite Hpre.
  rewrite (takeWhile_class_comma rest Hall).
  destruct (takeWhile ldap.notComma rest); [congruence|reflexivity].
Qed.

End claims_requests.

Section claims_roundtrip.
Context {golib : GoLib} {dir : goldap.Directory} {scopetab : ldap.ScopeTable}.
Context {ometa : metav1.ObjectMetaType} {codec : JSON} {tokens : types.TokenService}
  {texts : server.ErrorTexts}.
Context {laws : TokenServiceLaws}.

(** C2: when /auth issues a token for the identity [u] that [Search]
    returned, a review of that token by /token, at once or at any time
    before the reported expiration, answers 200 with authenticated=true,
    username the issued uid, uid the issued DN and groups the issued
    groups. *)
Theorem C2_issue_then_review (srv : server.Instance) (now now' : Time)
    (req req' : http.Request) (credentials : types.Credentials)
    (evs : list goldap.Event) (u : types.User) (res : http.ResponseWriter)
    (ec : client.ExecCredential) (st : client.ExecCredentialStatus)
    (tokenExp : Time) (tr : auth.TokenReview) :
  http.Get (http.ReqHeader req) server.ContentTypeHeader = server.ContentTypeJSON ->
  Decode_Credentials (http.Body req) = inr credentials ->
  types.IsValid credentials = true ->
  ldap.Search (server.l srv) (types.Username credentials) (types.Password credentials)
    = (evs, Ret (Some u, None)) ->
  server.authenticate srv now http.NewResponseWriter req = (evs, Ret res) ->
  In (http.ExecCredentialJSON ec) (http.WBody res) ->
  client.Status ec = Some st ->
  client.ExpirationTimestamp st = Some tokenExp ->
  now' = now \/ now' < tokenExp ->
  http.Get (http.ReqHeader req') server.ContentTypeHeader = server.ContentTypeJSON ->
  Decode_TokenReview (http.Body req') = inr tr ->
  auth.Token (auth.Spec tr) = client.Token st ->
  exists tr',
    http.WStatus (server.validate srv now' http.NewResponseWriter req') = Some 200 /\
    http.WBody (server.validate srv now' http.NewResponseWriter req')
      = [http.TokenReviewJSON tr'] /\
    auth.Authenticated (auth.Status tr') = true /\
    auth.Username (auth.User (auth.Status tr')) = types.Uid u /\
    auth.UID (auth.User (auth.Status tr')) = types.DN u /\
    auth.Groups (auth.User (auth.Status tr')) = types.Groups u.
Proof.
  intros Hct Hdec Hvalid HS Hauth Hbody Hst Hexp Hnow Hct' Hdec' Htok.
  rewrite (authenticate_accepted srv now req credentials Hct Hdec Hvalid), HS in Hauth.
  injection Hauth as <-.
  destruct (issue_inv now (Some u) ec Hbody)
    as (data & tokenData & tokenExp0 & Hm & Hp & He & ->).
  simpl in Hst. injection Hst as <-. simpl in Hexp, Htok. injection Hexp as ->.
  destruct (payload_parse now data tokenData Hp) as (token & Hparse & Hsame & Huser).
  assert (Hlive : types.TokenIsValid now' token = true).
  { rewrite Hsame. apply (issued_valid now now' data tokenExp He).
    destruct Hnow as [-> | Hlt]; [|exact Hlt].
    exact (issue_expiration now data tokenExp He). }
  rewrite (issued_user now u data Hm) in Huser.
  rewrite (validate_accepted srv now' req' tr Hct' Hdec'), Htok, Hparse, Hlive, Huser.
  eexists. repeat split.
Qed.

End claims_roundtrip.

(** * The claims at concrete requests

    The reference directory holds alice (two groups) and bob (a group
    value without [cn=]); [ref.twins] holds two entries with the uid
    Alice.  Tokens are issued at clock reading 1000 and live until 1600. *)

Local Ltac by_running := vm_compute; first [reflexivity | discriminate | tauto].

Lemma C1_no_match_witness :
  exists evs res,
    server.authenticate (golib := ref.goLib) (dir := ref.people)
      (scopetab := ref.scopeTable) (ometa := ref.objectMeta) (codec := ref.json)
      (tokens := ref.tokens) (texts := ref.errorTexts)
      ref.srv 1000 http.NewResponseWriter
      (ref.jsonRequest (ref.credentialsBody "mallory" "anything")) = (evs, Ret res) /\
    http.WStatus res = Some 200 /\
    http.WBody res
      = [http.ExecCredentialJSON (server.credentialOf ".1.6.0.0;.5.0.1.6.0.7;null" 1600)].
Proof.
  destruct (C1_no_match_issues_token (golib := ref.goLib) (dir := ref.people)
              (scopetab := ref.scopeTable) (ometa := ref.objectMeta) (codec := ref.json)
              (tokens := ref.tokens) (texts := ref.errorTexts)
              ref.srv 1000 (ref.jsonRequest (ref.credentialsBody "mallory" "anything"))
              {| types.Username := "mallory"; types.Password := "anything" |}
              tt tt tt {| goldap.Entries := [] |})
    as (evs & res & Hauth & _ & _ & Hok); try by_running.
  exists evs, res. split; [exact Hauth|].
  apply (Hok "null"); by_running.
Defined.

Lemma C3_nonmatching_group_witness :
  exists evs msg,
    ldap.Search (golib := ref.goLib) (dir := ref.people) (scopetab := ref.scopeTable)
      ref.config "bob" "builder" = (evs, Panic msg).
Proof.
  apply (C3_nonmatching_group_panics (golib := ref.goLib) (dir := ref.people)
           (scopetab := ref.scopeTable) ref.config "bob" "builder" tt tt tt
           {| goldap.Entries := [ref.entry ref.bob] |} (ref.entry ref.bob)
           "ou=groups,dc=example,dc=com"); by_running.
Defined.

Lemma C4_ambiguous_witness :
  exists res,
    server.authenticate (golib := ref.goLib) (dir := ref.twins)
      (scopetab := ref.scopeTable) (ometa := ref.objectMeta) (codec := ref.json)
      (tokens := ref.tokens) (texts := ref.errorTexts)
      ref.srv 1000 http.NewResponseWriter
      (ref.jsonRequest (ref.credentialsBody "Alice" "wonderland"))
      = ([goldap.EvDial "ldap://directory";
          goldap.EvBind "cn=service,dc=example,dc=com" "s3rv1ce";
          goldap.EvSearch (ldap.searchRequestFor (golib := ref.goLib)
                             (scopetab := ref.scopeTable) ref.config "Alice");
          goldap.EvClose], Ret res) /\
    http.WStatus res = Some 401 /\
    http.WBody res = [http.Text "unauthorized"].
Proof.
  apply (C4_ambiguous_unauthorized (golib := ref.goLib) (dir := ref.twins)
           (scopetab := ref.scopeTable) (ometa := ref.objectMeta) (codec := ref.json)
           (tokens := ref.tokens) (texts := ref.errorTexts)
           ref.srv 1000 (ref.jsonRequest (ref.credentialsBody "Alice" "wonderland"))
           {| types.Username := "Alice"; types.Password := "wonderland" |}
           tt tt tt
           {| goldap.Entries := [ref.entry ref.alice; ref.entry ref.alice2] |});
    by_running.
Defined.

(** C5, the claim as it stands, at a stale token sent with a
    [status.user] of the client's own: the review answers 200 with
    authenticated=false, and the response names the user "admin". *)
Lemma C5_counterexample :
  exists tr',
    http.WStatus
      (server.validate (ometa := ref.objectMeta) (codec := ref.json)
         (tokens := ref.tokens) (texts := ref.errorTexts)
         ref.srv 5000 http.NewResponseWriter
         (ref.jsonRequest (ref.reviewBody ref.aliceToken "review-1" "admin"))) = Some 200 /\
    http.WBody
      (server.validate (ometa := ref.objectMeta) (codec := ref.json)
         (tokens := ref.tokens) (texts := ref.errorTexts)
         ref.srv 5000 http.NewResponseWriter
         (ref.jsonRequest (ref.reviewBody ref.aliceToken "review-1" "admin")))
      = [http.TokenReviewJSON tr'] /\
    auth.Authenticated (auth.Status tr') = false /\
    auth.Username (auth.User (auth.Status tr')) = "admin" /\
    auth.User (auth.Status tr') <> ref.noUser.
Proof.
  eexists. split; [by_running|]. split; [vm_compute; reflexivity|].
  split; [reflexivity|]. split; [reflexivity|]. discriminate.
Qed.

Lemma C5_invalid_token_witness :
  exists tr',
    http.WStatus
      (server.validate (ometa := ref.objectMeta) (codec := ref.json)
         (tokens := ref.tokens) (texts := ref.errorTexts)
         ref.srv 5000 http.NewResponseWriter
         (ref.jsonRequest (ref.reviewBody ref.aliceToken "review-1" ""))) = Some 200 /\
    http.WBody
      (server.validate (ometa := ref.objectMeta) (codec := ref.json)
         (tokens := ref.tokens) (texts := ref.errorTexts)
         ref.srv 5000 http.NewResponseWriter
         (ref.jsonRequest (ref.reviewBody ref.aliceToken "review-1" "")))
      = [http.TokenReviewJSON tr'] /\
    auth.Authenticated (auth.Status tr') = false /\
    auth.User (auth.Status tr') = ref.noUser.
Proof.
  destruct (C5_invalid_token_reviewed (ometa := ref.objectMeta) (codec := ref.json)
              (tokens := ref.tokens) (texts := ref.errorTexts)
              ref.srv 5000
              (ref.jsonRequest (ref.reviewBody ref.aliceToken "review-1" ""))
              {| auth.TypeMeta := {| metav1.Kind := "TokenReview";
                                     metav1.APIVersion := "authentication.k8s.io/v1" |};
                 auth.ObjectMeta := "review-1" : metav1.ObjectMeta (ObjectMetaType := ref.objectMeta);
                 auth.Spec := {| auth.Token := ref.aliceToken; auth.SpecAudiences := [] |};
                 auth.Status := {| auth.Authenticated := false; auth.User := ref.noUser;
                                   auth.StatusAudiences := []; auth.Error := "" |} |}
              {| ref.tokData := "U.a.l.i.c.e;.u.i.d.=.a.l.i.c.e.,.o.u.=.p.e.o.p.l.e.,.d.c.=.e.x.a.m.p.l.e.,.d.c.=.c.o.m;,.p.l.a.t.f.o.r.m.-.a.d.m.i.n.s;,.d.e.v.-.t.e.a.m;!";
                 ref.tokExp := 1600; ref.tokSig := 921927 |})
    as (tr' & Hstatus & Hbody & Hauth & Huser); try by_running.
  exists tr'. repeat split; assumption.
Defined.

Lemma C6_review_echoes_witness :
  exists tr' tr,
    Decode_TokenReview (JSON := ref.json)
      (ref.reviewBody ref.aliceToken "review-1" "admin") = inr tr /\
    http.WBody
      (server.validate (ometa := ref.objectMeta) (codec := ref.json)
         (tokens := ref.tokens) (texts := ref.errorTexts)
         ref.srv 1000 http.NewResponseWriter
         (ref.jsonRequest (ref.reviewBody ref.aliceToken "review-1" "admin")))
      = [http.TokenReviewJSON tr'] /\
    auth.ObjectMeta tr' = auth.ObjectMeta tr /\
    auth.Spec tr' = auth.Spec tr /\
    auth.Authenticated (auth.Status tr') = true /\
    auth.Username (auth.User (auth.Status tr')) = "alice".
Proof.
  destruct (C6_review_echoes_request (ometa := ref.objectMeta) (codec := ref.json)
              (tokens := ref.tokens) (texts := ref.errorTexts)
              ref.srv 1000
              (ref.jsonRequest (ref.reviewBody ref.aliceToken "review-1" "admin"))
              (auth.setUser
                 {| auth.Username := "alice";
                    auth.UID := "uid=alice,ou=people,dc=example,dc=com";
                    auth.Groups := ["platform-admins"; "dev-team"];
                    auth.Extra := ∅ |}
                 (auth.setAuthenticated true
                    {| auth.TypeMeta := {| metav1.Kind := "TokenReview";
                                           metav1.APIVersion := "authentication.k8s.io/v1" |};
                       auth.ObjectMeta :=
                         "review-1" : metav1.ObjectMeta (ObjectMetaType := ref.objectMeta);
                       auth.Spec := {| auth.Token := ref.aliceToken;
                                       auth.SpecAudiences := [] |};
                       auth.Status := {| auth.Authenticated := false;
                                         auth.User := {| auth.Username := "admin";
                                                         auth.UID := "";
                                                         auth.Groups := [];
                                                         auth.Extra := ∅ |};
                                         auth.StatusAudiences := [];
                                         auth.Error := "" |} |})))
    as (tr & Hdec & Hbody & _ & Hmeta & Hspec & _).
  { left. vm_compute. reflexivity. }
  eexists _, tr. split; [exact Hdec|]. split; [exact Hbody|].
  split; [exact Hmeta|]. split; [exact Hspec|]. split; reflexivity.
Defined.

(** C7, the claim as it stands, at a name with an underscore: the value
    reads [cn=dev_team,...], and the group extracted is "dev". *)
Lemma C7_counterexample :
  ldap.spec_groupName (golib := ref.goLib) "cn=dev_team,ou=groups,dc=example,dc=com"
    = Some "dev_team" /\
  ldap.sanitize (golib := ref.goLib) ["cn=dev_team,ou=groups,dc=example,dc=com"]
    = Ret ["dev"].
Proof. split; vm_compute; reflexivity. Qed.

Lemma C7_group_name_witness :
  ldap.sanitize (golib := ref.goLib) ["CN=Platform-Admins,OU=Groups,DC=Example,DC=Com"]
    = Ret ["platform-admins"].
Proof.
  apply (C7_group_name_extracted (golib := ref.goLib)
           "CN=Platform-Admins,OU=Groups,DC=Example,DC=Com" "platform-admins");
    by_running.
Defined.

Lemma C8_not_json_witness :
  (exists res,
      server.authenticate (golib := ref.goLib) (dir := ref.people)
        (scopetab := ref.scopeTable) (ometa := ref.objectMeta) (codec := ref.json)
        (tokens := ref.tokens) (texts := ref.errorTexts)
        ref.srv 1000 http.NewResponseWriter
        (ref.plainRequest (ref.credentialsBody "Alice" "wonderland")) = ([], Ret res) /\
      http.WStatus res = Some 406) /\
  http.WStatus
    (server.validate (ometa := ref.objectMeta) (codec := ref.json)
       (tokens := ref.tokens) (texts := ref.errorTexts)
       ref.srv 1000 http.NewResponseWriter
       (ref.plainRequest (ref.credentialsBody "Alice" "wonderland"))) = Some 406.
Proof.
  apply (C8_not_json_not_acceptable (golib := ref.goLib) (dir := ref.people)
           (scopetab := ref.scopeTable) (ometa := ref.objectMeta) (codec := ref.json)
           (tokens := ref.tokens) (texts := ref.errorTexts)
           ref.srv 1000 (ref.plainRequest (ref.credentialsBody "Alice" "wonderland"))).
  vm_compute. discriminate.
Defined.

Lemma C9_empty_field_witness :
  exists res,
    server.authenticate (golib := ref.goLib) (dir := ref.people)
      (scopetab := ref.scopeTable) (ometa := ref.objectMeta) (codec := ref.json)
      (tokens := ref.tokens) (texts := ref.errorTexts)
      ref.srv 1000 http.NewResponseWriter
      (ref.jsonRequest (ref.credentialsBody "Alice" "")) = ([], Ret res) /\
    http.WStatus res = Some 400.
Proof.
  apply (C9_empty_field_bad_request (golib := ref.goLib) (dir := ref.people)
           (scopetab := ref.scopeTable) (ometa := ref.objectMeta) (codec := ref.json)
           (tokens := ref.tokens) (texts := ref.errorTexts)
           ref.srv 1000 (ref.jsonRequest (ref.credentialsBody "Alice" ""))
           {| types.Username := "Alice"; types.Password := "" |}).
  - vm_compute. reflexivity.
  - vm_compute. reflexivity.
  - right. reflexivity.
Defined.

Lemma C10_identity_lowercased_witness :
  exists l1 l2 result entry,
    goldap.ConnSearch (Directory := ref.people) l1
      (ldap.searchRequestFor (golib := ref.goLib) (scopetab := ref.scopeTable)
         ref.config "Alice") = (inr result, l2) /\
    goldap.Entries result = [entry] /\
    types.Uid ref.aliceUser
      = strings.ToLower (golib := ref.goLib) (goldap.GetAttributeValue entry "uid") /\
    types.DN ref.aliceUser = strings.ToLower (golib := ref.goLib) (goldap.DN entry) /\
    (isASCII (goldap.GetAttributeValue entry "uid") = true ->
     allBytes (fun c => negb (isUpperByte c)) (types.Uid ref.aliceUser) = true) /\
    (isASCII (goldap.DN entry) = true ->
     allBytes (fun c => negb (isUpperByte c)) (types.DN ref.aliceUser) = true).
Proof.
  apply (C10_identity_lowercased (golib := ref.goLib) (dir := ref.people)
           (scopetab := ref.scopeTable) ref.config "Alice" "wonderland"
           [goldap.EvDial "ldap://directory";
            goldap.EvBind "cn=service,dc=example,dc=com" "s3rv1ce";
            goldap.EvSearch (ldap.searchRequestFor (golib := ref.goLib)
                               (scopetab := ref.scopeTable) ref.config "Alice");
            goldap.EvBind "uid=Alice,ou=people,dc=example,dc=com" "wonderland";
            goldap.EvClose]
           ref.aliceUser).
  vm_compute. reflexivity.
Defined.

Lemma C2_issue_then_review_witness :
  exists tr',
    http.WStatus
      (server.validate (ometa := ref.objectMeta) (codec := ref.json)
         (tokens := ref.tokens) (texts := ref.errorTexts)
         ref.srv 1000 http.NewResponseWriter
         (ref.jsonRequest (ref.reviewBody ref.aliceToken "review-1" ""))) = Some 200 /\
    http.WBody
      (server.validate (ometa := ref.objectMeta) (codec := ref.json)
         (tokens := ref.tokens) (texts := ref.errorTexts)
         ref.srv 1000 http.NewResponseWriter
         (ref.jsonRequest (ref.reviewBody ref.aliceToken "review-1" "")))
      = [http.TokenReviewJSON tr'] /\
    auth.Authenticated (auth.Status tr') = true /\
    auth.Username (auth.User (auth.Status tr')) = "alice" /\
    auth.UID (auth.User (auth.Status tr')) = "uid=alice,ou=people,dc=example,dc=com" /\
    auth.Groups (auth.User (auth.Status tr')) = ["platform-admins"; "dev-team"].
Proof.
  assert (Hlaws : TokenServiceLaws (ometa := ref.objectMeta) (codec := ref.json)
                    (tokens := ref.tokens)).
  { apply ref_token_laws. lia. }
  refine (C2_issue_then_review (golib := ref.goLib) (dir := ref.people)
            (scopetab := ref.scopeTable) (ometa := ref.objectMeta) (codec := ref.json)
            (tokens := ref.tokens) (texts := ref.errorTexts) (laws := Hlaws)
            ref.srv 1000 1000
            (ref.jsonRequest (ref.credentialsBody "Alice" "wonderland"))
            (ref.jsonRequest (ref.reviewBody ref.aliceToken "review-1" ""))
            {| types.Username := "Alice"; types.Password := "wonderland" |}
            (ldap.Search (golib := ref.goLib) (dir := ref.people)
               (scopetab := ref.scopeTable) ref.config "Alice" "wonderland").1
            ref.aliceUser
            (server.issue (ometa := ref.objectMeta) (codec := ref.json)
               (tokens := ref.tokens) (texts := ref.errorTexts)
               1000 http.NewResponseWriter (Some ref.aliceUser))
            (server.credentialOf ref.aliceToken 1600)
            {| client.Token := ref.aliceToken;
               client.ExpirationTimestamp := Some 1600;
               client.ClientCertificateData := "";
               client.ClientKeyData := "" |}
            1600
            {| auth.TypeMeta := {| metav1.Kind := "TokenReview";
                                   metav1.APIVersion := "authentication.k8s.io/v1" |};
               auth.ObjectMeta :=
                 "review-1" : metav1.ObjectMeta (ObjectMetaType := ref.objectMeta);
               auth.Spec := {| auth.Token := ref.aliceToken; auth.SpecAudiences := [] |};
               auth.Status := {| auth.Authenticated := false; auth.User := ref.noUser;
                                 auth.StatusAudiences := []; auth.Error := "" |} |}
            _ _ _ _ _ _ _ _ _ _ _ _); by_running.
Defined.

(** * Further properties of the code *)

(** ** The pattern and [sanitize], in full *)

Lemma takeWhile_split (p : ascii -> bool) (s : string) :
  exists rest, s = takeWhile p s +:+ rest /\ stops p rest.
Proof.
  induction s as [|c s (rest & Hs & Hstop)]; simpl.
  - exists "". split; [reflexivity|exact I].
  - destruct (p c) eqn:Hc.
    + exists rest. split; [|exact Hstop]. rewrite append_cons. f_equal. exact Hs.
    + exists (String c s). split; [reflexivity|exact Hc].
Qed.

Lemma takeWhile_head (p : ascii -> bool) (c : ascii) (s : string) :
  takeWhile p (String c s) = EmptyString <-> p c = false.
Proof. simpl. destruct (p c); split; congruence. Qed.

(** The two outcomes of the pattern on a string. *)
Lemma FindStringSubmatch_cases (s : string) :
  (exists name rest,
      s = "cn=" +:+ name +:+ rest /\ name <> "" /\
      allBytes regexp.cnClass name = true /\ stops regexp.cnClass rest /\
      regexp.FindStringSubmatch s = ["cn=" +:+ name; name]) \/
  (regexp.FindStringSubmatch s = [] /\
   forall c rest, s = "cn=" +:+ String c rest -> regexp.cnClass c = false).
Proof.
  unfold regexp.FindStringSubmatch.
  destruct (stripPrefix "cn=" s) as [tail|] eqn:Hpre.
  - apply stripPrefix_Some in Hpre. subst s.
    destruct (takeWhile regexp.cnClass tail) as [|c name] eqn:Hrun.
    + right. split; [reflexivity|]. intros c rest Heq.
      apply (inj (String.append "cn=")) in Heq. subst tail.
      now apply takeWhile_head in Hrun.
    + left. destruct (takeWhile_split regexp.cnClass tail) as (rest & Htail & Hstop).
      exists (String c name), rest. rewrite Hrun in Htail.
      split; [now rewrite <- Htail|]. split; [discriminate|].
      split; [rewrite <- Hrun; apply takeWhile_all|]. split; [exact Hstop|reflexivity].
  - right. split; [reflexivity|]. intros c rest ->.
    now rewrite stripPrefix_app in Hpre.
Qed.

(** X1: the pattern matches exactly the strings that begin with [cn=]
    and at least one byte of the class a-z, 0-9, hyphen. *)
Theorem X1_pattern_matches_iff (s : string) :
  regexp.FindStringSubmatch s <> [] <->
  exists c rest, s = "cn=" +:+ String c rest /\ regexp.cnClass c = true.
Proof.
  destruct (FindStringSubmatch_cases s)
    as [(name & rest & Hs & Hne & Hall & _ & Hres) | [Hres Hno]].
  - rewrite Hres. split; [|discriminate]. intros _.
    destruct name as [|c name]; [congruence|].
    exists c, (name +:+ rest). split; [exact Hs|].
    simpl in Hall. now apply andb_true_iff in Hall as [Hc _].
  - rewrite Hres. split; [congruence|].
    intros (c & rest & Hs & Hc). rewrite (Hno c rest Hs) in Hc. discriminate.
Qed.

(** X2: a match is the whole match and the group; the group is the
    longest run of class bytes after [cn=]: it is not empty, it is made of
    class bytes, and what follows it in the string is the end or a byte
    outside the class. *)
Theorem X2_pattern_group (s whole group : string) :
  regexp.FindStringSubmatch s = [whole; group] ->
  whole = "cn=" +:+ group /\ group <> "" /\
  allBytes regexp.cnClass group = true /\
  exists rest, s = whole +:+ rest /\ stops regexp.cnClass rest.
Proof.
  destruct (FindStringSubmatch_cases s)
    as [(name & rest & Hs & Hne & Hall & Hstop & Hres) | [Hres _]];
    rewrite Hres; [|discriminate].
  intros [= <- <-]. repeat split; try assumption.
  exists rest. split; [|exact Hstop]. rewrite append_assoc. exact Hs.
Qed.

Section sanitize_facts.
Context {golib : GoLib}.

Lemma index_Ret {A : Type} (a : list A) (i : nat) (x : A) :
  index a i = Ret x <-> a !! i = Some x.
Proof. unfold index. destruct (a !! i); split; congruence. Qed.

Lemma index_Panic {A : Type} (a : list A) (i : nat) (msg : string) :
  index a i = Panic msg -> a !! i = None.
Proof. unfold index. destruct (a !! i); congruence. Qed.

Lemma lookup_1_None (s : string) :
  regexp.FindStringSubmatch s !! 1%nat = None <-> regexp.FindStringSubmatch s = [].
Proof.
  destruct (FindStringSubmatch_cases s) as [(name & rest & _ & _ & _ & _ & ->) | [-> _]].
  - split; discriminate.
  - split; reflexivity.
Qed.

Lemma sanitize_from_Ret (a res out : list string) :
  ldap.sanitize_from res a = Ret out <->
  exists names, out = res ++ names /\ Forall2 ldap.groupOf a names.
Proof.
  revert res. induction a as [|item a IH]; intros res; simpl.
  - split.
    + intros [= <-]. exists []. split; [now rewrite app_nil_r|constructor].
    + intros (names & -> & Hall). inversion Hall. now rewrite app_nil_r.
  - destruct (index _ 1) as [name|msg] eqn:Hidx; simpl.
    + apply index_Ret in Hidx. rewrite IH. split.
      * intros (names & -> & Hall). exists (name :: names).
        split; [now rewrite <- app_assoc|]. constructor; assumption.
      * intros (names & -> & Hall). inversion Hall as [|? g ? names' Hg Hall']; subst.
        unfold ldap.groupOf in Hg. rewrite Hidx in Hg. injection Hg as <-.
        exists names'. split; [now rewrite <- app_assoc|assumption].
    + apply index_Panic in Hidx. split; [discriminate|].
      intros (names & _ & Hall). inversion Hall as [|? g ? names' Hg Hall']; subst.
      unfold ldap.groupOf in Hg. congruence.
Qed.

Lemma sanitize_from_acc (a res : list string) :
  ldap.sanitize_from res a = names ← ldap.sanitize_from [] a; Ret (res ++ names).
Proof.
  revert res. induction a as [|item a IH]; intros res; simpl.
  - now rewrite app_nil_r.
  - destruct (index _ 1) as [name|msg]; simpl; [|reflexivity].
    rewrite (IH (res ++ [name])), (IH [name]).
    destruct (ldap.sanitize_from [] a) as [names|msg]; simpl; [|reflexivity].
    now rewrite <- app_assoc.
Qed.

Lemma sanitize_from_app (a b res : list string) :
  ldap.sanitize_from res (a ++ b) = res' ← ldap.sanitize_from res a; ldap.sanitize_from res' b.
Proof.
  revert res. induction a as [|item a IH]; intros res; simpl; [reflexivity|].
  destruct (index _ 1) as [name|msg]; simpl; [apply IH|reflexivity].
Qed.

(** X3: [sanitize] returns exactly when every value matches, and then
    the result lists the group of each value, in order. *)
Theorem X3_sanitize_returns_iff (a names : list string) :
  ldap.sanitize a = Ret names <-> Forall2 ldap.groupOf a names.
Proof.
  unfold ldap.sanitize. rewrite sanitize_from_Ret. split.
  - intros (names' & -> & Hall). exact Hall.
  - intros Hall. exists names. split; [reflexivity|exact Hall].
Qed.

Lemma sanitize_from_Panic_inv (a res : list string) (msg : string) :
  ldap.sanitize_from res a = Panic msg ->
  Exists (fun value => regexp.FindStringSubmatch (strings.ToLower value) = []) a.
Proof.
  revert res. induction a as [|item a IH]; intros res; simpl; [discriminate|].
  destruct (index _ 1) as [name|msg'] eqn:Hidx; simpl.
  - intros Hp. right. exact (IH _ Hp).
  - intros _. left. apply lookup_1_None. exact (index_Panic _ _ _ Hidx).
Qed.

Lemma groupOf_wellformed (value group : string) :
  ldap.groupOf value group ->
  group <> "" /\ allBytes regexp.cnClass group = true.
Proof.
  unfold ldap.groupOf.
  destruct (FindStringSubmatch_cases (strings.ToLower value))
    as [(name & rest & _ & Hne & Hall & _ & ->) | [-> _]]; [|discriminate].
  intros [= <-]. split; assumption.
Qed.

(** X4: [sanitize] panics exactly when some value does not match. *)
Theorem X4_sanitize_panics_iff (a : list string) :
  (exists msg, ldap.sanitize a = Panic msg) <->
  Exists (fun value => regexp.FindStringSubmatch (strings.ToLower value) = []) a.
Proof.
  split.
  - intros [msg Hp]. exact (sanitize_from_Panic_inv a [] msg Hp).
  - intros Hex. apply Exists_exists in Hex as (value & Hin & Hno).
    apply (sanitize_from_panics a [] value); [|exact Hno].
    now apply list_elem_of_In.
Qed.

(** X5: every group name [sanitize] returns is non-empty and made of the
    bytes a-z, 0-9 and hyphen only. *)
Theorem X5_sanitize_names_wellformed (a names : list string) (name : string) :
  ldap.sanitize a = Ret names -> In name names ->
  name <> "" /\ allBytes regexp.cnClass name = true.
Proof.
  unfold ldap.sanitize. rewrite sanitize_from_Ret.
  intros (names' & -> & Hall) Hin. simpl in Hin.
  apply list_elem_of_In, list_elem_of_lookup in Hin as [i Hi].
  destruct (Forall2_lookup_r _ _ _ _ _ Hall Hi) as (value & _ & Hg).
  exact (groupOf_wellformed value name Hg).
Qed.

(** X6: [sanitize] of two lists put end to end is the two results put end
    to end, and a panic of either part is a panic of the whole. *)
Theorem X6_sanitize_app (a b : list string) :
  ldap.sanitize (a ++ b) =
    names_a ← ldap.sanitize a; names_b ← ldap.sanitize b; Ret (names_a ++ names_b).
Proof.
  unfold ldap.sanitize. rewrite sanitize_from_app.
  destruct (ldap.sanitize_from [] a) as [names_a|msg]; simpl; [|reflexivity].
  apply sanitize_from_acc.
Qed.

(** X7: [sanitize] sees a value only through its lowercase: lists whose
    values agree up to case give the same result. *)
Theorem X7_sanitize_case_blind (a b : list string) :
  Forall2 (fun v w => strings.ToLower v = strings.ToLower w) a b ->
  ldap.sanitize a = ldap.sanitize b.
Proof.
  unfold ldap.sanitize. generalize (@nil string) as res.
  intros res Hall. revert res.
  induction Hall as [|v w a b Hvw Hall IH]; intros res; simpl; [reflexivity|].
  rewrite Hvw. destruct (index _ 1) as [name|msg]; simpl; [apply IH|reflexivity].
Qed.

End sanitize_facts.

(** ** [Search], path by path *)

Section search_paths.
Context {golib : GoLib} {dir : goldap.Directory} {scopetab : ldap.ScopeTable}.

Local Abbreviation dialEv s := (goldap.EvDial (ldap.ldapURL s)).
Local Abbreviation serviceEv s := (goldap.EvBind (ldap.bindDN s) (ldap.bindPassword s)).
Local Abbreviation searchEv s u := (goldap.EvSearch (ldap.searchRequestFor s u)).

(** Every run of [Search] is one of seven: the dial fails; the service
    bind fails; the search fails; it has no entry; it has several; the
    bind as the entry fails; the bind succeeds and the user is built. *)
Lemma Search_cases (s : ldap.Ldap) (username password : string) :
  (exists err,
      goldap.DialURL (ldap.ldapURL s) = inl err /\
      ldap.Search s username password = ([dialEv s], Ret (None, Some err))) \/
  (exists l0 l1 err,
      goldap.DialURL (ldap.ldapURL s) = inr l0 /\
      goldap.Bind l0 (ldap.bindDN s) (ldap.bindPassword s) = (Some err, l1) /\
      ldap.Search s username password
        = ([dialEv s; serviceEv s; goldap.EvClose], Ret (None, Some err))) \/
  (exists l0 l1 l2 err,
      goldap.DialURL (ldap.ldapURL s) = inr l0 /\
      goldap.Bind l0 (ldap.bindDN s) (ldap.bindPassword s) = (None, l1) /\
      goldap.ConnSearch l1 (ldap.searchRequestFor s username) = (inl err, l2) /\
      ldap.Search s username password
        = ([dialEv s; serviceEv s; searchEv s username; goldap.EvClose],
           Ret (None, Some err))) \/
  (exists l0 l1 l2 result,
      goldap.DialURL (ldap.ldapURL s) = inr l0 /\
      goldap.Bind l0 (ldap.bindDN s) (ldap.bindPassword s) = (None, l1) /\
      goldap.ConnSearch l1 (ldap.searchRequestFor s username) = (inr result, l2) /\
      ((goldap.Entries result = [] /\
        ldap.Search s username password
          = ([dialEv s; serviceEv s; searchEv s username; goldap.EvClose],
             Ret (None, None))) \/
       ((2 <= length (goldap.Entries result))%nat /\
        ldap.Search s username password
          = ([dialEv s; serviceEv s; searchEv s username; goldap.EvClose],
             Ret (None, Some "Too many entries returned"))) \/
       (exists entry l3 err,
           goldap.Entries result = [entry] /\
           goldap.Bind l2 (goldap.DN entry) password = (Some err, l3) /\
           ldap.Search s username password
             = ([dialEv s; serviceEv s; searchEv s username;
                 goldap.EvBind (goldap.DN entry) password; goldap.EvClose],
                Ret (None, Some err))) \/
       (exists entry l3,
           goldap.Entries result = [entry] /\
           goldap.Bind l2 (goldap.DN entry) password = (None, l3) /\
           ldap.Search s username password
             = ([dialEv s; serviceEv s; searchEv s username;
                 goldap.EvBind (goldap.DN entry) password; goldap.EvClose],
                groups ← ldap.sanitize
                           (goldap.GetAttributeValues entry (ldap.memberOfProperty s));
                Ret (Some {| types.Uid :=
                               strings.ToLower (goldap.GetAttributeValue entry "uid");
                             types.DN := strings.ToLower (goldap.DN entry);
                             types.Groups := groups |}, None))))).
Proof.
  destruct (goldap.DialURL (ldap.ldapURL s)) as [err|l0] eqn:Hdial.
  { left. exists err. split; [reflexivity|].
    unfold ldap.Search. now rewrite Hdial. }
  right. rewrite (Search_dialled s username password l0 Hdial).
  destruct (goldap.Bind l0 (ldap.bindDN s) (ldap.bindPassword s)) as [[err|] l1] eqn:Hbind.
  { left. exists l0, l1, err. split; [reflexivity|]. split; [exact Hbind|].
    unfold ldap.searchOn. cbv zeta. now rewrite Hbind. }
  right.
  destruct (goldap.ConnSearch l1 (ldap.searchRequestFor s username))
    as [[err|result] l2] eqn:Hsearch.
  { left. exists l0, l1, l2, err.
    split; [reflexivity|]. split; [exact Hbind|]. split; [exact Hsearch|].
    unfold ldap.searchOn. cbv zeta. now rewrite Hbind, Hsearch. }
  right. exists l0, l1, l2, result.
  split; [reflexivity|]. split; [exact Hbind|]. split; [exact Hsearch|].
  rewrite (searchOn_entries s username password l0 l1 l2 result Hbind Hsearch).
  destruct (goldap.Entries result) as [|entry [|entry' rest]].
  - left. split; reflexivity.
  - right. right.
    destruct (goldap.Bind l2 (goldap.DN entry) password) as [[err|] l3] eqn:Hbind2.
    + left. exists entry, l3, err. repeat split; assumption.
    + right. exists entry, l3. repeat split; assumption.
  - right. left. split; [simpl; lia|reflexivity].
Qed.


(** X9: the connection is closed exactly when the dial succeeded, once,
    and as the last operation, on every path, a panic included. *)
Theorem X9_Search_closes (s : ldap.Ldap) (username password : string) :
  match goldap.DialURL (ldap.ldapURL s) with
  | inl _ => ~ In goldap.EvClose (ldap.Search s username password).1
  | inr _ =>
      exists evs,
        (ldap.Search s username password).1 = evs ++ [goldap.EvClose] /\
        ~ In goldap.EvClose evs
  end.
Proof.
  destruct (Search_cases s username password)
    as [(err & Hd & ->) | [(l0 & l1 & err & Hd & _ & ->)
       | [(l0 & l1 & l2 & err & Hd & _ & _ & ->)
       | (l0 & l1 & l2 & result & Hd & _ & _ &
          [[_ ->] | [[_ ->] | [(entry & l3 & err & _ & _ & ->) | (entry & l3 & _ & _ & ->)]]])]]];
    rewrite Hd; simpl.
  - intros [[=]|[]].
  - exists [dialEv s; serviceEv s]. split; [reflexivity|]. simpl. intuition discriminate.
  - exists [dialEv s; serviceEv s; searchEv s username].
    split; [reflexivity|]. simpl. intuition discriminate.
  - exists [dialEv s; serviceEv s; searchEv s username].
    split; [reflexivity|]. simpl. intuition discriminate.
  - exists [dialEv s; serviceEv s; searchEv s username].
    split; [reflexivity|]. simpl. intuition discriminate.
  - exists [dialEv s; serviceEv s; searchEv s username;
            goldap.EvBind (goldap.DN entry) password].
    split; [reflexivity|]. simpl. intuition discriminate.
  - exists [dialEv s; serviceEv s; searchEv s username;
            goldap.EvBind (goldap.DN entry) password].
    split; [reflexivity|]. simpl. intuition discriminate.
Qed.

End search_paths.

Ltac search_cases s username password :=
  let err := fresh "err" in
  let l0 := fresh "l0" in let l1 := fresh "l1" in
  let l2 := fresh "l2" in let l3 := fresh "l3" in
  let result := fresh "result" in let entry := fresh "entry" in
  let Hd := fresh "Hdial" in let Hb := fresh "Hbind" in
  let Hs := fresh "Hsearch" in let He := fresh "Hentries" in
  let Hu := fresh "Hbind2" in let HS := fresh "HSearch" in
  destruct (Search_cases s username password)
    as [(err & Hd & HS)
       | [(l0 & l1 & err & Hd & Hb & HS)
       | [(l0 & l1 & l2 & err & Hd & Hb & Hs & HS)
       | (l0 & l1 & l2 & result & Hd & Hb & Hs &
          [[He HS]
          | [[He HS]
          | [(entry & l3 & err & He & Hu & HS)
          | (entry & l3 & He & Hu & HS)]]])]]].

Section search_results.
Context {golib : GoLib} {dir : goldap.Directory} {scopetab : ldap.ScopeTable}.

(** X10: the password of the caller goes to the directory in one
    operation only: the bind as the single entry the search returned.
    Every other bind is the one of the service account. *)
Theorem X10_password_confined (s : ldap.Ldap) (username password dn pw : string) :
  In (goldap.EvBind dn pw) (ldap.Search s username password).1 ->
  (dn = ldap.bindDN s /\ pw = ldap.bindPassword s) \/
  (exists l1 l2 result entry,
      goldap.ConnSearch l1 (ldap.searchRequestFor s username) = (inr result, l2) /\
      goldap.Entries result = [entry] /\
      dn = goldap.DN entry /\ pw = password).
Proof.
  search_cases s username password; rewrite HSearch; simpl; intros Hin;
    repeat (destruct Hin as [Hin|Hin]; try discriminate Hin); try contradiction;
    try (injection Hin as <- <-; first [ left; split; reflexivity
      | right; exists l1, l2, result, entry; repeat split; assumption ]).
Qed.

(** X11: the way through.  When the dial, the service bind and the
    search succeed, the search has exactly one entry, the bind as that
    entry succeeds and every group value matches, [Search] returns the
    user of that entry: lowercased uid and DN and the group of each
    value, with no error, after the five operations in order. *)
Theorem X11_Search_success (s : ldap.Ldap) (username password : string)
    (l0 l1 l2 l3 : goldap.Conn) (result : goldap.SearchResult)
    (entry : goldap.Entry) (groups : list string) :
  goldap.DialURL (ldap.ldapURL s) = inr l0 ->
  goldap.Bind l0 (ldap.bindDN s) (ldap.bindPassword s) = (None, l1) ->
  goldap.ConnSearch l1 (ldap.searchRequestFor s username) = (inr result, l2) ->
  goldap.Entries result = [entry] ->
  goldap.Bind l2 (goldap.DN entry) password = (None, l3) ->
  Forall2 ldap.groupOf (goldap.GetAttributeValues entry (ldap.memberOfProperty s)) groups ->
  ldap.Search s username password =
    ([goldap.EvDial (ldap.ldapURL s);
      goldap.EvBind (ldap.bindDN s) (ldap.bindPassword s);
      goldap.EvSearch (ldap.searchRequestFor s username);
      goldap.EvBind (goldap.DN entry) password;
      goldap.EvClose],
     Ret (Some {| types.Uid := strings.ToLower (goldap.GetAttributeValue entry "uid");
                  types.DN := strings.ToLower (goldap.DN entry);
                  types.Groups := groups |}, None)).
Proof.
  intros Hdial Hbind Hsearch Hone Hbind2 Hgroups.
  rewrite (Search_dialled s username password l0 Hdial).
  rewrite (searchOn_entries s username password l0 l1 l2 result Hbind Hsearch).
  rewrite Hone, Hbind2.
  assert (Hs : ldap.sanitize (goldap.GetAttributeValues entry (ldap.memberOfProperty s))
               = Ret groups).
  { unfold ldap.sanitize. apply sanitize_from_Ret. exists groups. split; [reflexivity|assumption]. }
  rewrite Hs. reflexivity.
Qed.

(** X12: an error of the directory comes back as it is, with no user:
    from the dial, from the service bind, from the search, or from the
    bind as the entry found.  In the last case the group values are not
    read, so a value that does not match cannot turn the error into a
    panic. *)
Theorem X12_directory_error_surfaced (s : ldap.Ldap) (username password : string)
    (err : error) :
  goldap.DialURL (ldap.ldapURL s) = inl err \/
  (exists l0 l1,
      goldap.DialURL (ldap.ldapURL s) = inr l0 /\
      goldap.Bind l0 (ldap.bindDN s) (ldap.bindPassword s) = (Some err, l1)) \/
  (exists l0 l1 l2,
      goldap.DialURL (ldap.ldapURL s) = inr l0 /\
      goldap.Bind l0 (ldap.bindDN s) (ldap.bindPassword s) = (None, l1) /\
      goldap.ConnSearch l1 (ldap.searchRequestFor s username) = (inl err, l2)) \/
  (exists l0 l1 l2 l3 result entry,
      goldap.DialURL (ldap.ldapURL s) = inr l0 /\
      goldap.Bind l0 (ldap.bindDN s) (ldap.bindPassword s) = (None, l1) /\
      goldap.ConnSearch l1 (ldap.searchRequestFor s username) = (inr result, l2) /\
      goldap.Entries result = [entry] /\
      goldap.Bind l2 (goldap.DN entry) password = (Some err, l3)) ->
  (ldap.Search s username password).2 = Ret (None, Some err).
Proof.
  intros [Hdial | [(l0 & l1 & Hdial & Hbind) | [(l0 & l1 & l2 & Hdial & Hbind & Hsearch)
    | (l0 & l1 & l2 & l3 & result & entry & Hdial & Hbind & Hsearch & Hone & Hbind2)]]].
  - unfold ldap.Search. now rewrite Hdial.
  - rewrite (Search_dialled s username password l0 Hdial). simpl.
    unfold ldap.searchOn. cbv zeta. now rewrite Hbind.
  - rewrite (Search_dialled s username password l0 Hdial). simpl.
    unfold ldap.searchOn. cbv zeta. now rewrite Hbind, Hsearch.
  - rewrite (Search_dialled s username password l0 Hdial). simpl.
    rewrite (searchOn_entries s username password l0 l1 l2 result Hbind Hsearch).
    now rewrite Hone, Hbind2.
Qed.

(** X13: where an error of [Search] comes from.  An error never comes
    with a user, and it is the error of the dial, of the service bind, of
    the search or of the bind as the single entry, or else the fixed error
    for a search with two or more entries. *)
Theorem X13_Search_error_origin (s : ldap.Ldap) (username password : string)
    (evs : list goldap.Event) (user : option types.User) (err : error) :
  ldap.Search s username password = (evs, Ret (user, Some err)) ->
  user = None /\
  (goldap.DialURL (ldap.ldapURL s) = inl err \/
   (exists l0 l1,
       goldap.DialURL (ldap.ldapURL s) = inr l0 /\
       goldap.Bind l0 (ldap.bindDN s) (ldap.bindPassword s) = (Some err, l1)) \/
   (exists l1 l2,
       goldap.ConnSearch l1 (ldap.searchRequestFor s username) = (inl err, l2)) \/
   (exists l1 l2 result,
       goldap.ConnSearch l1 (ldap.searchRequestFor s username) = (inr result, l2) /\
       (2 <= length (goldap.Entries result))%nat /\
       err = "Too many entries returned") \/
   (exists l1 l2 l3 result entry,
       goldap.ConnSearch l1 (ldap.searchRequestFor s username) = (inr result, l2) /\
       goldap.Entries result = [entry] /\
       goldap.Bind l2 (goldap.DN entry) password = (Some err, l3))).
Proof.
  search_cases s username password; rewrite HSearch.
  - intros [= <- <- <-]. split; [reflexivity|]. left. assumption.
  - intros [= <- <- <-]. split; [reflexivity|]. right. left. eauto.
  - intros [= <- <- <-]. split; [reflexivity|]. right. right. left. eauto.
  - intros [=].
  - intros [= <- <- <-]. split; [reflexivity|]. right. right. right. left.
    exists l1, l2, result. repeat split; assumption.
  - intros [= <- <- <-]. split; [reflexivity|]. right. right. right. right.
    exists l1, l2, l3, result, entry. repeat split; assumption.
  - destruct (ldap.sanitize _); simpl; intros [=].
Qed.

(** X14: [Search] returns neither a user nor an error in one case only:
    the dial, the service bind and the search succeeded and the search
    has no entry. *)
Theorem X14_Search_nil_nil_iff (s : ldap.Ldap) (username password : string) :
  (ldap.Search s username password).2 = Ret (None, None) <->
  exists l0 l1 l2 result,
    goldap.DialURL (ldap.ldapURL s) = inr l0 /\
    goldap.Bind l0 (ldap.bindDN s) (ldap.bindPassword s) = (None, l1) /\
    goldap.ConnSearch l1 (ldap.searchRequestFor s username) = (inr result, l2) /\
    goldap.Entries result = [].
Proof.
  split.
  - search_cases s username password; rewrite HSearch; simpl;
      try (intros Habsurd; discriminate Habsurd).
    + intros _. exists l0, l1, l2, result. repeat split; assumption.
    + destruct (ldap.sanitize _); simpl; intros [=].
  - intros (l0 & l1 & l2 & result & Hdial & Hbind & Hsearch & Hnone).
    rewrite (Search_dialled s username password l0 Hdial). simpl.
    rewrite (searchOn_entries s username password l0 l1 l2 result Hbind Hsearch).
    now rewrite Hnone.
Qed.

End search_results.

(** ** The handlers, response by response *)

Section handler_facts.
Context {golib : GoLib} {dir : goldap.Directory} {scopetab : ldap.ScopeTable}.
Context {ometa : metav1.ObjectMetaType} {codec : JSON} {tokens : types.TokenService}
  {texts : server.ErrorTexts}.

Lemma Search_events_nonempty (s : ldap.Ldap) (username password : string) :
  (ldap.Search s username password).1 <> [].
Proof.
  unfold ldap.Search. destruct (goldap.DialURL _); [discriminate|].
  destruct (ldap.searchOn _ _ _ _). discriminate.
Qed.

(** The three ways [issue] ends in [ErrServerError], or the credential. *)
Lemma issue_cases (now : Time) (user : option types.User) :
  ((exists err, Marshal_User user = inl err) \/
   (exists data err, Marshal_User user = inr data /\
                     types.Payload (types.NewToken now data) = inl err) \/
   (exists data tokenData err,
       Marshal_User user = inr data /\
       types.Payload (types.NewToken now data) = inr tokenData /\
       types.Expiration (types.NewToken now data) = inl err)) /\
  server.issue now http.NewResponseWriter user
    = server.writeError http.NewResponseWriter server.ErrServerError
  \/
  exists data tokenData tokenExp,
    Marshal_User user = inr data /\
    types.Payload (types.NewToken now data) = inr tokenData /\
    types.Expiration (types.NewToken now data) = inr tokenExp /\
    server.issue now http.NewResponseWriter user =
      {| http.WHeader := http.Set_ ∅ server.ContentTypeHeader server.ContentTypeJSON;
         http.WStatus := Some 200;
         http.WBody := [http.ExecCredentialJSON (server.credentialOf tokenData tokenExp)] |}.
Proof.
  unfold server.issue.
  destruct (Marshal_User user) as [err|data]; [left; split; eauto|].
  destruct (types.Payload _) as [err|tokenData] eqn:Hp; [left; split; eauto 6|].
  destruct (types.Expiration _) as [err|tokenExp] eqn:He; [left; split; eauto 8|].
  right. exists data, tokenData, tokenExp. repeat split; assumption.
Qed.

(** X15: what /auth can answer.  An answer is either one of five error
    values written as status and text, with no header set, or 200 with
    the JSON content type and one credential. *)
Theorem X15_authenticate_responses (srv : server.Instance) (now : Time)
    (req : http.Request) (evs : list goldap.Event) (res : http.ResponseWriter) :
  server.authenticate srv now http.NewResponseWriter req = (evs, Ret res) ->
  (exists err,
      In err [server.ErrNotAcceptable; server.ErrDecodeFailed;
              server.ErrMalformedCredentials; server.ErrUnauthorized;
              server.ErrServerError] /\
      res = {| http.WHeader := ∅; http.WStatus := Some (server.s err);
               http.WBody := [http.Text (server.e err)] |}) \/
  (exists tokenData tokenExp,
      res = {| http.WHeader :=
                 http.Set_ ∅ server.ContentTypeHeader server.ContentTypeJSON;
               http.WStatus := Some 200;
               http.WBody :=
                 [http.ExecCredentialJSON (server.credentialOf tokenData tokenExp)] |}).
Proof.
  unfold server.authenticate.
  destruct (negb _).
  { intros [= <- <-]. left. eexists. split; [|reflexivity]. simpl. tauto. }
  destruct (Decode_Credentials _) as [?|credentials].
  { intros [= <- <-]. left. eexists. split; [|reflexivity]. simpl. tauto. }
  destruct (negb _).
  { intros [= <- <-]. left. eexists. split; [|reflexivity]. simpl. tauto. }
  destruct (ldap.Search _ _ _) as [evs' [[user [err|]]|msg]]; intros [= <- <-].
  - left. eexists. split; [|reflexivity]. simpl. tauto.
  - destruct (issue_cases now user)
      as [[_ ->] | (data & tokenData & tokenExp & _ & _ & _ & ->)].
    + left. eexists. split; [|reflexivity]. simpl. tauto.
    + right. eauto.
Qed.

(** X16: the directory is contacted exactly for requests with the JSON
    content type whose body decodes to credentials that are valid. *)
Theorem X16_directory_contacted_iff (srv : server.Instance) (now : Time)
    (req : http.Request) :
  (server.authenticate srv now http.NewResponseWriter req).1 <> [] <->
  http.Get (http.ReqHeader req) server.ContentTypeHeader = server.ContentTypeJSON /\
  exists credentials,
    Decode_Credentials (http.Body req) = inr credentials /\
    types.IsValid credentials = true.
Proof.
  unfold server.authenticate.
  destruct (String.eqb _ _) eqn:Hct; simpl.
  2:{ apply String.eqb_neq in Hct. split; [congruence|]. intros [Heq _]. contradiction. }
  apply String.eqb_eq in Hct.
  destruct (Decode_Credentials _) as [?|credentials]; simpl.
  { split; [congruence|]. intros (_ & c & [=] & _). }
  destruct (types.IsValid credentials) eqn:Hvalid; simpl.
  2:{ split; [congruence|]. intros (_ & c & [= <-] & Hc). congruence. }
  pose proof (Search_events_nonempty (server.l srv) (types.Username credentials)
                (types.Password credentials)) as Hne.
  destruct (ldap.Search _ _ _) as [evs [[user [err|]]|msg]]; simpl in *;
    (split; [intros _; split; [exact Hct|]; exists credentials; split; auto
            | intros _; exact Hne]).
Qed.

(** X18: a credential is written exactly when the request was accepted,
    [Search] returned without an error (with a user or without one), and
    marshalling, signing and reading the expiration all succeeded; it is
    then the signed token with its expiration. *)
Theorem X18_credential_iff (srv : server.Instance) (now : Time)
    (req : http.Request) (ec : client.ExecCredential) :
  (exists evs res,
      server.authenticate srv now http.NewResponseWriter req = (evs, Ret res) /\
      In (http.ExecCredentialJSON ec) (http.WBody res)) <->
  http.Get (http.ReqHeader req) server.ContentTypeHeader = server.ContentTypeJSON /\
  exists credentials evs user data tokenData tokenExp,
    Decode_Credentials (http.Body req) = inr credentials /\
    types.IsValid credentials = true /\
    ldap.Search (server.l srv) (types.Username credentials) (types.Password credentials)
      = (evs, Ret (user, None)) /\
    Marshal_User user = inr data /\
    types.Payload (types.NewToken now data) = inr tokenData /\
    types.Expiration (types.NewToken now data) = inr tokenExp /\
    ec = server.credentialOf tokenData tokenExp.
Proof.
  split.
  - intros (evs & res & Hauth & Hin). revert Hauth. unfold server.authenticate.
    destruct (String.eqb _ _) eqn:Hct; simpl.
    2:{ intros [= <- <-]. destruct Hin as [[=]|[]]. }
    apply String.eqb_eq in Hct.
    destruct (Decode_Credentials _) as [?|credentials] eqn:Hdec.
    { intros [= <- <-]. destruct Hin as [[=]|[]]. }
    destruct (types.IsValid credentials) eqn:Hvalid; simpl.
    2:{ intros [= <- <-]. destruct Hin as [[=]|[]]. }
    destruct (ldap.Search _ _ _) as [evs' [[user [err|]]|msg]] eqn:HS; intros [= <- <-].
    { destruct Hin as [[=]|[]]. }
    destruct (issue_inv now user ec Hin) as (data & tokenData & tokenExp & Hm & Hp & He & ->).
    split; [exact Hct|].
    exists credentials, evs', user, data, tokenData, tokenExp. repeat split; assumption.
  - intros (Hct & credentials & evs & user & data & tokenData & tokenExp
            & Hdec & Hvalid & HS & Hm & Hp & He & ->).
    rewrite (authenticate_accepted srv now req credentials Hct Hdec Hvalid), HS.
    eexists _, _. split; [reflexivity|].
    rewrite (issue_ok now user data tokenData tokenExp Hm Hp He). left. reflexivity.
Qed.

(** X19: once [Search] has returned without an error, a failure to
    marshal the user, to sign the token or to read its expiration is
    answered with [ErrServerError], and nothing else is: the failure is
    not reported as unauthorized and no credential is written. *)
Theorem X19_server_error_iff (srv : server.Instance) (now : Time)
    (req : http.Request) (credentials : types.Credentials)
    (evs : list goldap.Event) (user : option types.User) :
  http.Get (http.ReqHeader req) server.ContentTypeHeader = server.ContentTypeJSON ->
  Decode_Credentials (http.Body req) = inr credentials ->
  types.IsValid credentials = true ->
  ldap.Search (server.l srv) (types.Username credentials) (types.Password credentials)
    = (evs, Ret (user, None)) ->
  server.authenticate srv now http.NewResponseWriter req
    = (evs, Ret (server.writeError http.NewResponseWriter server.ErrServerError)) <->
  (exists err, Marshal_User user = inl err) \/
  (exists data err, Marshal_User user = inr data /\
                    types.Payload (types.NewToken now data) = inl err) \/
  (exists data tokenData err,
      Marshal_User user = inr data /\
      types.Payload (types.NewToken now data) = inr tokenData /\
      types.Expiration (types.NewToken now data) = inl err).
Proof.
  intros Hct Hdec Hvalid HS.
  rewrite (authenticate_accepted srv now req credentials Hct Hdec Hvalid), HS.
  destruct (issue_cases now user)
    as [[Hfail ->] | (data & tokenData & tokenExp & Hm & Hp & He & ->)].
  - split; [intros _; exact Hfail|reflexivity].
  - split; [intros [=]|].
    intros [(err & Hm') | [(data' & err & Hm' & Hp') | (data' & tokenData' & err & Hm' & Hp' & He')]];
      congruence.
Qed.

End handler_facts.

(** X17: every failure of the directory round trip gets the same answer.
    Two accepted requests, to two directories, at two clock readings,
    whose [Search] each returned an error of any kind, are answered with
    the same response: what went wrong cannot be told from it. *)
Theorem X17_failures_indistinguishable {golib : GoLib} {scopetab : ldap.ScopeTable}
    {ometa : metav1.ObjectMetaType} {codec : JSON} {tokens : types.TokenService}
    {texts : server.ErrorTexts}
    (dir1 dir2 : goldap.Directory) (srv1 srv2 : server.Instance) (now1 now2 : Time)
    (req1 req2 : http.Request) (credentials1 credentials2 : types.Credentials)
    (evs1 evs2 : list goldap.Event) (user1 user2 : option types.User)
    (err1 err2 : error) :
  http.Get (http.ReqHeader req1) server.ContentTypeHeader = server.ContentTypeJSON ->
  http.Get (http.ReqHeader req2) server.ContentTypeHeader = server.ContentTypeJSON ->
  Decode_Credentials (http.Body req1) = inr credentials1 ->
  Decode_Credentials (http.Body req2) = inr credentials2 ->
  types.IsValid credentials1 = true ->
  types.IsValid credentials2 = true ->
  ldap.Search (dir := dir1) (server.l srv1)
    (types.Username credentials1) (types.Password credentials1)
    = (evs1, Ret (user1, Some err1)) ->
  ldap.Search (dir := dir2) (server.l srv2)
    (types.Username credentials2) (types.Password credentials2)
    = (evs2, Ret (user2, Some err2)) ->
  (server.authenticate (dir := dir1) srv1 now1 http.NewResponseWriter req1).2
  = (server.authenticate (dir := dir2) srv2 now2 http.NewResponseWriter req2).2.
Proof.
  intros Hct1 Hct2 Hdec1 Hdec2 Hv1 Hv2 HS1 HS2.
  rewrite (authenticate_accepted (dir := dir1) srv1 now1 req1 credentials1 Hct1 Hdec1 Hv1).
  rewrite (authenticate_accepted (dir := dir2) srv2 now2 req2 credentials2 Hct2 Hdec2 Hv2).
  rewrite HS1, HS2. reflexivity.
Qed.

Section review_facts.
Context {golib : GoLib} {dir : goldap.Directory} {scopetab : ldap.ScopeTable}.
Context {ometa : metav1.ObjectMetaType} {codec : JSON} {tokens : types.TokenService}
  {texts : server.ErrorTexts}.


(** X21: what /token can answer.  An answer is either one of four error
    values written as status and text, with no header set, or 200 with
    the JSON content type and one review object. *)
Theorem X21_validate_responses (srv : server.Instance) (now : Time) (req : http.Request) :
  (exists err,
      In err [server.ErrNotAcceptable; server.ErrDecodeFailed;
              server.ErrMalformedToken; server.ErrServerError] /\
      server.validate srv now http.NewResponseWriter req
        = {| http.WHeader := ∅; http.WStatus := Some (server.s err);
             http.WBody := [http.Text (server.e err)] |}) \/
  (exists tr',
      server.validate srv now http.NewResponseWriter req
        = {| http.WHeader :=
               http.Set_ ∅ server.ContentTypeHeader server.ContentTypeJSON;
             http.WStatus := Some 200;
             http.WBody := [http.TokenReviewJSON tr'] |}).
Proof.
  unfold server.validate.
  destruct (negb _).
  { left. eexists. split; [|reflexivity]. simpl. tauto. }
  destruct (Decode_TokenReview _) as [?|tr].
  { left. eexists. split; [|reflexivity]. simpl. tauto. }
  destruct (types.Parse _) as [?|token].
  { left. eexists. split; [|reflexivity]. simpl. tauto. }
  destruct (types.TokenIsValid now token); simpl.
  - destruct (types.GetUser token) as [?|user].
    + left. eexists. split; [|reflexivity]. simpl. tauto.
    + right. eexists. reflexivity.
  - right. eexists. reflexivity.
Qed.

(** X22: the review says authenticated=true exactly when the token
    parses, is valid at the clock reading of the review and its user
    decodes; whatever [Status.Authenticated] the request carried plays no
    part. *)
Theorem X22_authenticated_iff (srv : server.Instance) (now : Time) (req : http.Request)
    (tr : auth.TokenReview) :
  http.Get (http.ReqHeader req) server.ContentTypeHeader = server.ContentTypeJSON ->
  Decode_TokenReview (http.Body req) = inr tr ->
  (exists tr',
      In (http.TokenReviewJSON tr')
         (http.WBody (server.validate srv now http.NewResponseWriter req)) /\
      auth.Authenticated (auth.Status tr') = true) <->
  exists token user,
    types.Parse (auth.Token (auth.Spec tr)) = inr token /\
    types.TokenIsValid now token = true /\
    types.GetUser token = inr user.
Proof.
  intros Hct Hdec. rewrite (validate_accepted srv now req tr Hct Hdec).
  destruct (types.Parse _) as [?|token] eqn:Hparse.
  { split; [intros (tr' & [[=]|[]] & _)|intros (? & ? & [=] & _)]. }
  destruct (types.TokenIsValid now token) eqn:Hvalid.
  - destruct (types.GetUser token) as [?|user] eqn:Huser.
    + split; [intros (tr' & [[=]|[]] & _)|].
      intros (token' & user' & [= <-] & _ & Huser'). congruence.
    + split; [intros _; eauto|]. intros _. eexists. split; [left; reflexivity|reflexivity].
  - split.
    + intros (tr' & [[= <-]|[]] & Habs). discriminate Habs.
    + intros (token' & user' & [= <-] & Hvalid' & _). congruence.
Qed.

(** X23: the verdict hangs on the token alone.  Two requests that carry
    the same token, reviewed at the same clock reading, get the same
    status, the same verdict and, when authenticated, the same user,
    whatever else their bodies hold. *)
Theorem X23_verdict_by_token (srv : server.Instance) (now : Time)
    (req1 req2 : http.Request) (tr1 tr2 : auth.TokenReview) :
  http.Get (http.ReqHeader req1) server.ContentTypeHeader = server.ContentTypeJSON ->
  http.Get (http.ReqHeader req2) server.ContentTypeHeader = server.ContentTypeJSON ->
  Decode_TokenReview (http.Body req1) = inr tr1 ->
  Decode_TokenReview (http.Body req2) = inr tr2 ->
  auth.Token (auth.Spec tr1) = auth.Token (auth.Spec tr2) ->
  server.validate srv now http.NewResponseWriter req1
    = server.validate srv now http.NewResponseWriter req2 \/
  exists tr1' tr2',
    server.validate srv now http.NewResponseWriter req1
      = {| http.WHeader := http.Set_ ∅ server.ContentTypeHeader server.ContentTypeJSON;
           http.WStatus := Some 200;
           http.WBody := [http.TokenReviewJSON tr1'] |} /\
    server.validate srv now http.NewResponseWriter req2
      = {| http.WHeader := http.Set_ ∅ server.ContentTypeHeader server.ContentTypeJSON;
           http.WStatus := Some 200;
           http.WBody := [http.TokenReviewJSON tr2'] |} /\
    auth.Authenticated (auth.Status tr1') = auth.Authenticated (auth.Status tr2') /\
    (auth.Authenticated (auth.Status tr1') = true ->
     auth.User (auth.Status tr1') = auth.User (auth.Status tr2')).
Proof.
  intros Hct1 Hct2 Hdec1 Hdec2 Htok.
  rewrite (validate_accepted srv now req1 tr1 Hct1 Hdec1).
  rewrite (validate_accepted srv now req2 tr2 Hct2 Hdec2).
  rewrite <- Htok.
  destruct (types.Parse _) as [?|token]; [left; reflexivity|].
  destruct (types.TokenIsValid now token).
  - destruct (types.GetUser token) as [?|user]; [left; reflexivity|].
    right. eexists _, _. repeat split.
  - right. eexists _, _. split; [reflexivity|]. split; [reflexivity|].
    split; [reflexivity|]. simpl. discriminate.
Qed.

End review_facts.

Section request_facts.
Context {golib : GoLib} {dir : goldap.Directory} {scopetab : ldap.ScopeTable}.

(** X24: the one search request.  Whatever [Search] asks the directory
    is built from the configuration given to [NewInstance] and from the
    username alone: the base, the scope the table has for the scope name
    (0 when the name is not in the table), no alias dereferencing, no size
    or time limit, the filter template filled with the username and the
    configured attributes.  The password is no part of it. *)
Theorem X24_search_request (ldapURL bindDN bindPassword searchBase searchScope
    searchFilter memberOfProperty : string) (searchAttributes : list string)
    (username password : string) (r : goldap.SearchRequest) :
  In (goldap.EvSearch r)
     (ldap.Search (ldap.NewInstance ldapURL bindDN bindPassword searchBase searchScope
                     searchFilter memberOfProperty searchAttributes)
        username password).1 ->
  r = {| goldap.BaseDN := searchBase;
         goldap.Scope := default 0 (ldap.scopeMap !! searchScope);
         goldap.DerefAliases := 0;
         goldap.SizeLimit := 0;
         goldap.TimeLimit := 0;
         goldap.TypesOnly := false;
         goldap.Filter := Sprintf searchFilter username;
         goldap.ReqAttributes := searchAttributes |}.
Proof.
  set (s := ldap.NewInstance _ _ _ _ _ _ _ _).
  search_cases s username password; rewrite HSearch; simpl; intros Hin;
    repeat (destruct Hin as [Hin|Hin]; try discriminate Hin); try contradiction;
    injection Hin as <-; reflexivity.
Qed.

End request_facts.

(** ** The further properties at concrete inputs *)

Lemma X2_pattern_group_witness :
  "cn=dev-team" = "cn=" +:+ "dev-team" /\ "dev-team" <> "" /\
  allBytes regexp.cnClass "dev-team" = true /\
  exists rest, "cn=dev-team_2,ou=groups" = "cn=dev-team" +:+ rest /\
               stops regexp.cnClass rest.
Proof.
  apply (X2_pattern_group "cn=dev-team_2,ou=groups" "cn=dev-team" "dev-team").
  vm_compute. reflexivity.
Defined.

Lemma X5_sanitize_names_witness :
  "dev-team" <> "" /\ allBytes regexp.cnClass "dev-team" = true.
Proof.
  apply (X5_sanitize_names_wellformed (golib := ref.goLib)
           ["cn=platform-admins,ou=groups,dc=example,dc=com";
            "CN=Dev-Team,ou=groups,dc=example,dc=com"]
           ["platform-admins"; "dev-team"] "dev-team").
  - vm_compute. reflexivity.
  - simpl. tauto.
Defined.

Lemma X7_sanitize_case_blind_witness :
  ldap.sanitize (golib := ref.goLib) ["CN=Dev-Team,OU=Groups,DC=Example,DC=Com"]
  = ldap.sanitize (golib := ref.goLib) ["cn=dev-team,ou=groups,dc=example,dc=com"].
Proof.
  apply (X7_sanitize_case_blind (golib := ref.goLib)).
  constructor; [vm_compute; reflexivity|constructor].
Defined.

Lemma X10_password_confined_witness :
  ("uid=Alice,ou=people,dc=example,dc=com" = ldap.bindDN ref.config /\
   "wonderland" = ldap.bindPassword ref.config) \/
  (exists l1 l2 result entry,
      goldap.ConnSearch (Directory := ref.people) l1
        (ldap.searchRequestFor (golib := ref.goLib) (scopetab := ref.scopeTable)
           ref.config "Alice") = (inr result, l2) /\
      goldap.Entries result = [entry] /\
      "uid=Alice,ou=people,dc=example,dc=com" = goldap.DN entry /\
      "wonderland" = "wonderland").
Proof.
  apply (X10_password_confined (golib := ref.goLib) (dir := ref.people)
           (scopetab := ref.scopeTable) ref.config "Alice" "wonderland"
           "uid=Alice,ou=people,dc=example,dc=com" "wonderland").
  vm_compute. tauto.
Defined.

Lemma X11_Search_success_witness :
  ldap.Search (golib := ref.goLib) (dir := ref.people) (scopetab := ref.scopeTable)
    ref.config "Alice" "wonderland" =
    ([goldap.EvDial "ldap://directory";
      goldap.EvBind "cn=service,dc=example,dc=com" "s3rv1ce";
      goldap.EvSearch (ldap.searchRequestFor (golib := ref.goLib)
                         (scopetab := ref.scopeTable) ref.config "Alice");
      goldap.EvBind "uid=Alice,ou=people,dc=example,dc=com" "wonderland";
      goldap.EvClose],
     Ret (Some ref.aliceUser, None)).
Proof.
  apply (X11_Search_success (golib := ref.goLib) (dir := ref.people)
           (scopetab := ref.scopeTable) ref.config "Alice" "wonderland" tt tt tt tt
           {| goldap.Entries := [ref.entry ref.alice] |} (ref.entry ref.alice)
           ["platform-admins"; "dev-team"]); try by_running.
  repeat constructor.
Defined.

(** bob has a group value that does not match; with a wrong password the
    error of the bind comes back and the groups are never read. *)
Lemma X12_directory_error_witness :
  (ldap.Search (golib := ref.goLib) (dir := ref.people) (scopetab := ref.scopeTable)
     ref.config "bob" "wrong").2 = Ret (None, Some "Invalid Credentials").
Proof.
  apply (X12_directory_error_surfaced (golib := ref.goLib) (dir := ref.people)
           (scopetab := ref.scopeTable) ref.config "bob" "wrong" "Invalid Credentials").
  right. right. right.
  exists tt, tt, tt, tt, {| goldap.Entries := [ref.entry ref.bob] |}, (ref.entry ref.bob).
  repeat split; vm_compute; reflexivity.
Defined.

Lemma X13_Search_error_origin_witness :
  @None types.User = None /\
  (goldap.DialURL (Directory := ref.twins) (ldap.ldapURL ref.config)
     = inl "Too many entries returned" \/
   (exists l0 l1,
       goldap.DialURL (Directory := ref.twins) (ldap.ldapURL ref.config) = inr l0 /\
       goldap.Bind l0 (ldap.bindDN ref.config) (ldap.bindPassword ref.config)
         = (Some "Too many entries returned", l1)) \/
   (exists l1 l2,
       goldap.ConnSearch (Directory := ref.twins) l1
         (ldap.searchRequestFor (golib := ref.goLib) (scopetab := ref.scopeTable)
            ref.config "Alice") = (inl "Too many entries returned", l2)) \/
   (exists l1 l2 result,
       goldap.ConnSearch (Directory := ref.twins) l1
         (ldap.searchRequestFor (golib := ref.goLib) (scopetab := ref.scopeTable)
            ref.config "Alice") = (inr result, l2) /\
       (2 <= length (goldap.Entries result))%nat /\
       "Too many entries returned" = "Too many entries returned") \/
   (exists l1 l2 l3 result entry,
       goldap.ConnSearch (Directory := ref.twins) l1
         (ldap.searchRequestFor (golib := ref.goLib) (scopetab := ref.scopeTable)
            ref.config "Alice") = (inr result, l2) /\
       goldap.Entries result = [entry] /\
       goldap.Bind l2 (goldap.DN entry) "wonderland"
         = (Some "Too many entries returned", l3))).
Proof.
  apply (X13_Search_error_origin (golib := ref.goLib) (dir := ref.twins)
           (scopetab := ref.scopeTable) ref.config "Alice" "wonderland"
           [goldap.EvDial "ldap://directory";
            goldap.EvBind "cn=service,dc=example,dc=com" "s3rv1ce";
            goldap.EvSearch (ldap.searchRequestFor (golib := ref.goLib)
                               (scopetab := ref.scopeTable) ref.config "Alice");
            goldap.EvClose]
           None "Too many entries returned").
  vm_compute. reflexivity.
Defined.

Lemma X15_authenticate_responses_witness :
  (exists err,
      In err [server.ErrNotAcceptable (texts := ref.errorTexts);
              server.ErrDecodeFailed (texts := ref.errorTexts);
              server.ErrMalformedCredentials (texts := ref.errorTexts);
              server.ErrUnauthorized (texts := ref.errorTexts);
              server.ErrServerError (texts := ref.errorTexts)] /\
      server.writeError (ometa := ref.objectMeta) http.NewResponseWriter
        (server.ErrUnauthorized (texts := ref.errorTexts))
      = {| http.WHeader := ∅; http.WStatus := Some (server.s err);
           http.WBody := [http.Text (server.e err)] |}) \/
  (exists tokenData tokenExp,
      server.writeError (ometa := ref.objectMeta) http.NewResponseWriter
        (server.ErrUnauthorized (texts := ref.errorTexts))
      = {| http.WHeader :=
             http.Set_ ∅ server.ContentTypeHeader server.ContentTypeJSON;
           http.WStatus := Some 200;
           http.WBody :=
             [http.ExecCredentialJSON (server.credentialOf tokenData tokenExp)] |}).
Proof.
  apply (X15_authenticate_responses (golib := ref.goLib) (dir := ref.people)
           (scopetab := ref.scopeTable) (ometa := ref.objectMeta) (codec := ref.json)
           (tokens := ref.tokens) (texts := ref.errorTexts)
           ref.srv 1000 (ref.jsonRequest (ref.credentialsBody "Alice" "wrong"))
           (ldap.Search (golib := ref.goLib) (dir := ref.people)
              (scopetab := ref.scopeTable) ref.config "Alice" "wrong").1).
  vm_compute. reflexivity.
Defined.

(** A wrong password for alice and a uid with two entries: one answer. *)
Lemma X17_failures_indistinguishable_witness :
  (server.authenticate (golib := ref.goLib) (dir := ref.people)
     (scopetab := ref.scopeTable) (ometa := ref.objectMeta) (codec := ref.json)
     (tokens := ref.tokens) (texts := ref.errorTexts)
     ref.srv 1000 http.NewResponseWriter
     (ref.jsonRequest (ref.credentialsBody "Alice" "wrong"))).2
  = (server.authenticate (golib := ref.goLib) (dir := ref.twins)
       (scopetab := ref.scopeTable) (ometa := ref.objectMeta) (codec := ref.json)
       (tokens := ref.tokens) (texts := ref.errorTexts)
       ref.srv 2000 http.NewResponseWriter
       (ref.jsonRequest (ref.credentialsBody "Alice" "wonderland"))).2.
Proof.
  apply (X17_failures_indistinguishable (golib := ref.goLib)
           (scopetab := ref.scopeTable) (ometa := ref.objectMeta) (codec := ref.json)
           (tokens := ref.tokens) (texts := ref.errorTexts)
           ref.people ref.twins ref.srv ref.srv 1000 2000
           (ref.jsonRequest (ref.credentialsBody "Alice" "wrong"))
           (ref.jsonRequest (ref.credentialsBody "Alice" "wonderland"))
           {| types.Username := "Alice"; types.Password := "wrong" |}
           {| types.Username := "Alice"; types.Password := "wonderland" |}
           (ldap.Search (golib := ref.goLib) (dir := ref.people)
              (scopetab := ref.scopeTable) ref.config "Alice" "wrong").1
           (ldap.Search (golib := ref.goLib) (dir := ref.twins)
              (scopetab := ref.scopeTable) ref.config "Alice" "wonderland").1
           None None "Invalid Credentials" "Too many entries returned");
    by_running.
Defined.

(** alice has the right password, but the service cannot sign: 500. *)
Lemma X19_server_error_witness :
  server.authenticate (golib := ref.goLib) (dir := ref.people)
    (scopetab := ref.scopeTable) (ometa := ref.objectMeta) (codec := ref.json)
    (tokens := ref.keyless) (texts := ref.errorTexts)
    ref.srv 1000 http.NewResponseWriter
    (ref.jsonRequest (ref.credentialsBody "Alice" "wonderland"))
  = ((ldap.Search (golib := ref.goLib) (dir := ref.people)
        (scopetab := ref.scopeTable) ref.config "Alice" "wonderland").1,
     Ret {| http.WHeader := ∅; http.WStatus := Some 500;
            http.WBody := [http.Text "server error"] |}).
Proof.
  apply (X19_server_error_iff (golib := ref.goLib) (dir := ref.people)
           (scopetab := ref.scopeTable) (ometa := ref.objectMeta) (codec := ref.json)
           (tokens := ref.keyless) (texts := ref.errorTexts)
           ref.srv 1000 (ref.jsonRequest (ref.credentialsBody "Alice" "wonderland"))
           {| types.Username := "Alice"; types.Password := "wonderland" |}
           (ldap.Search (golib := ref.goLib) (dir := ref.people)
              (scopetab := ref.scopeTable) ref.config "Alice" "wonderland").1
           (Some ref.aliceUser)); try by_running.
  right. left. eexists _, _. split; vm_compute; reflexivity.
Defined.


(** The token of alice, reviewed while it lives, with a request that
    says authenticated=false, as every decoded request does here. *)
Lemma X22_authenticated_witness :
  exists tr',
    In (http.TokenReviewJSON tr')
       (http.WBody
          (server.validate (ometa := ref.objectMeta) (codec := ref.json)
             (tokens := ref.tokens) (texts := ref.errorTexts)
             ref.srv 1599 http.NewResponseWriter
             (ref.jsonRequest (ref.reviewBody ref.aliceToken "review-1" "")))) /\
    auth.Authenticated (auth.Status tr') = true.
Proof.
  apply (X22_authenticated_iff (ometa := ref.objectMeta) (codec := ref.json)
           (tokens := ref.tokens) (texts := ref.errorTexts)
           ref.srv 1599
           (ref.jsonRequest (ref.reviewBody ref.aliceToken "review-1" ""))
           {| auth.TypeMeta := {| metav1.Kind := "TokenReview";
                                  metav1.APIVersion := "authentication.k8s.io/v1" |};
              auth.ObjectMeta :=
                "review-1" : metav1.ObjectMeta (ObjectMetaType := ref.objectMeta);
              auth.Spec := {| auth.Token := ref.aliceToken; auth.SpecAudiences := [] |};
              auth.Status := {| auth.Authenticated := false; auth.User := ref.noUser;
                                auth.StatusAudiences := []; auth.Error := "" |} |}).
  - vm_compute. reflexivity.
  - vm_compute. reflexivity.
  - eexists _, ref.aliceUser. repeat split; vm_compute; reflexivity.
Defined.

(** The same token sent twice, once with a [status.user] of the client's
    own: the same status. *)
Lemma X23_verdict_by_token_witness :
  http.WStatus
    (server.validate (ometa := ref.objectMeta) (codec := ref.json)
       (tokens := ref.tokens) (texts := ref.errorTexts)
       ref.srv 1000 http.NewResponseWriter
       (ref.jsonRequest (ref.reviewBody ref.aliceToken "review-1" "admin")))
  = http.WStatus
      (server.validate (ometa := ref.objectMeta) (codec := ref.json)
         (tokens := ref.tokens) (texts := ref.errorTexts)
         ref.srv 1000 http.NewResponseWriter
         (ref.jsonRequest (ref.reviewBody ref.aliceToken "review-2" ""))).
Proof.
  destruct (X23_verdict_by_token (ometa := ref.objectMeta) (codec := ref.json)
              (tokens := ref.tokens) (texts := ref.errorTexts)
              ref.srv 1000
              (ref.jsonRequest (ref.reviewBody ref.aliceToken "review-1" "admin"))
              (ref.jsonRequest (ref.reviewBody ref.aliceToken "review-2" ""))
              {| auth.TypeMeta := {| metav1.Kind := "TokenReview";
                                     metav1.APIVersion := "authentication.k8s.io/v1" |};
                 auth.ObjectMeta :=
                   "review-1" : metav1.ObjectMeta (ObjectMetaType := ref.objectMeta);
                 auth.Spec := {| auth.Token := ref.aliceToken; auth.SpecAudiences := [] |};
                 auth.Status := {| auth.Authenticated := false;
                                   auth.User := {| auth.Username := "admin"; auth.UID := "";
                                                   auth.Groups := []; auth.Extra := ∅ |};
                                   auth.StatusAudiences := [];
                                   auth.Error := "" |} |}
              {| auth.TypeMeta := {| metav1.Kind := "TokenReview";
                                     metav1.APIVersion := "authentication.k8s.io/v1" |};
                 auth.ObjectMeta :=
                   "review-2" : metav1.ObjectMeta (ObjectMetaType := ref.objectMeta);
                 auth.Spec := {| auth.Token := ref.aliceToken; auth.SpecAudiences := [] |};
                 auth.Status := {| auth.Authenticated := false; auth.User := ref.noUser;
                                   auth.StatusAudiences := [];
                                   auth.Error := "" |} |})
    as [Hsame | (tr1' & tr2' & H1 & H2 & _)];
    [| | | | | rewrite Hsame; reflexivity | rewrite H1, H2; reflexivity];
    vm_compute; reflexivity.
Defined.

Lemma X24_search_request_witness :
  {| goldap.BaseDN := "dc=example,dc=com"; goldap.Scope := 0;
     goldap.DerefAliases := 0; goldap.SizeLimit := 0; goldap.TimeLimit := 0;
     goldap.TypesOnly := false; goldap.Filter := "(uid=Alice)";
     goldap.ReqAttributes := ["uid"; "memberOf"] |}
  = {| goldap.BaseDN := "dc=example,dc=com";
       goldap.Scope := default 0 (ldap.scopeMap (ScopeTable := ref.scopeTable) !! "subtree");
       goldap.DerefAliases := 0; goldap.SizeLimit := 0; goldap.TimeLimit := 0;
       goldap.TypesOnly := false;
       goldap.Filter := Sprintf (GoLib := ref.goLib) "(uid=%s)" "Alice";
       goldap.ReqAttributes := ["uid"; "memberOf"] |}.
Proof.
  apply (X24_search_request (golib := ref.goLib) (dir := ref.people)
           (scopetab := ref.scopeTable)
           "ldap://directory" "cn=service,dc=example,dc=com" "s3rv1ce"
           "dc=example,dc=com" "subtree" "(uid=%s)" "memberOf" ["uid"; "memberOf"]
           "Alice" "wonderland").
  vm_compute. tauto.
Defined.
